(** * useSubscriptionTier: a shallow embedding of the tier-resolving hook

    Source: [src/hooks/useSubscriptionTier.tsx].

    The hook keeps three React state cells ([tier], [loading],
    [diagnostics]) and, whenever the observed [user] changes, runs an
    effect.  With a user present the effect runs the asynchronous routine
    [resolveSubscriptionTier]: a four-stage profile lookup cascade against
    the Supabase client followed by one query on the [subscriptions] table.

    The routine is embedded in a state-and-exception monad [M].  The state
    carries the React cells, the routine's local [diagnosticData] object and
    a chronological log of the actions performed (awaited queries, setter
    calls, pushes on the stage list, console output).  The Supabase client is
    an external collaborator: it is a record of answers, one per query the
    routine can await, each answer being a settled promise.  Every query is
    awaited at most once per resolution, so a record of answers describes any
    backend behaviour during one resolution.

    Modelling choices:
    - a JavaScript string is a [string] (its UTF-8 bytes); a nullable value
      is an [option];
    - an awaited query either resolves to a response [{ data, error }] or
      rejects; the error object of a response is a plain object, not an
      instance of [Error], so line 128 renders it as ['Unknown error'];
    - the RPC returns a string or [null]; the [count] of the subscription
      response and the payloads of the console calls are left out;
    - successive runs of the effect do not overlap: a resolution completes
      before the next run starts. *)

From Stdlib Require Import String Ascii List ZArith NArith Bool Lia Sorted.
Import ListNotations.

Local Open Scope string_scope.
Local Open Scope list_scope.

(* ================================================================== *)
(** ** JavaScript values and built-ins used by the hook *)

Module Js.

(** Truthiness of a string: only the empty string is falsy. *)
Definition truthy (s : string) : bool :=
  match s with
  | EmptyString => false
  | String _ _ => true
  end.

(** [v || d] where [v] is a string or [undefined]/[null] ([None]). *)
Definition or_else (v : option string) (d : string) : string :=
  match v with
  | Some s => if truthy s then s else d
  | None => d
  end.

(** Characters [encodeURIComponent] leaves alone:
    [A-Z a-z 0-9 - _ . ! ~ * ' ( )]. *)
Definition unreserved (c : ascii) : bool :=
  let n := N_of_ascii c in
  ((65 <=? n) && (n <=? 90) || (97 <=? n) && (n <=? 122) ||
   (48 <=? n) && (n <=? 57) ||
   existsb (N.eqb n) [45; 95; 46; 33; 126; 42; 39; 40; 41])%N.

Definition hex_digit (n : N) : ascii :=
  ascii_of_N (if (n <? 10)%N then 48 + n else 55 + n)%N.

(** [encodeURIComponent] on a string read as its UTF-8 bytes: every byte
    that is not unreserved becomes [%XX] with upper-case digits. *)
Fixpoint encodeURIComponent (s : string) : string :=
  match s with
  | EmptyString => EmptyString
  | String c rest =>
      if unreserved c then String c (encodeURIComponent rest)
      else
        let n := N_of_ascii c in
        String "%" (String (hex_digit (n / 16)) (String (hex_digit (n mod 16))
          (encodeURIComponent rest)))
  end.

End Js.

(* ================================================================== *)
(** ** Data model *)

(** [User] of [@supabase/supabase-js], restricted to the two fields read. *)
Module User.
Record t := mk { id : string; email : string }.
End User.

(** A row of [profiles] as selected by [.select('id')]. *)
Module Profile.
Record t := mk { id : string }.
End Profile.

(** The error object the client returns in the [error] field. *)
Module PostgrestError.
Record t := mk { message : string; details : string; hint : string; code : string }.
End PostgrestError.

(** A row of the [subscriptions] table; [created_at] is a timestamp. *)
Module Subscription.
Record t := mk { login_id : string; tier : string; created_at : Z }.
End Subscription.

(** A row of [subscriptions] as selected by [.select('tier')]. *)
Module TierRow.
Record t := mk { tier : string }.
End TierRow.

(** [interface DiagnosticData] (lines 6-11). *)
Module DiagnosticData.
Record t := mk {
  profileLookupStages : list string;
  finalTier : option string;
  subscriptionError : option PostgrestError.t;
  profileError : option string
}.

(** [{ profileLookupStages: [] }] *)
Definition empty : t := mk [] None None None.

Definition push_stage (label : string) (d : t) : t :=
  mk (profileLookupStages d ++ [label]) (finalTier d) (subscriptionError d) (profileError d).

Definition with_finalTier (v : string) (d : t) : t :=
  mk (profileLookupStages d) (Some v) (subscriptionError d) (profileError d).

Definition with_subscriptionError (e : PostgrestError.t) (d : t) : t :=
  mk (profileLookupStages d) (finalTier d) (Some e) (profileError d).

(** [{ ...d, profileError: msg }] *)
Definition with_profileError (msg : string) (d : t) : t :=
  mk (profileLookupStages d) (finalTier d) (subscriptionError d) (Some msg).
End DiagnosticData.

(** A value that can be thrown or be the reason of a rejected promise:
    an instance of [Error] carrying a message, or the plain error object of
    a response (which is not an instance of [Error]). *)
Inductive Thrown : Type :=
| ErrorInstance (message : string)
| ErrorObject (e : PostgrestError.t).

(** [error instanceof Error ? error.message : 'Unknown error'] (line 128). *)
Definition error_text (error : Thrown) : string :=
  match error with
  | ErrorInstance message => message
  | ErrorObject _ => "Unknown error"
  end.

(** What an awaited query resolves to: [{ data, error }], [data] being
    [null] ([None]) or a value. *)
Record Response (D : Type) := mkResponse {
  data : option D;
  error : option PostgrestError.t
}.
Arguments mkResponse {D} _ _.
Arguments data {D} _.
Arguments error {D} _.

(** A settled promise. *)
Inductive Settled (D : Type) : Type :=
| Fulfilled (r : Response D)
| Rejected (reason : Thrown).
Arguments Fulfilled {D} _.
Arguments Rejected {D} _.

(** The queries the routine awaits, with their arguments. *)
Inductive Query : Type :=
| SelectProfileByEmail (email : string)        (* lines 31-35 *)
| SelectProfilesILikeEmail (email : string)    (* lines 39-42 *)
| RpcGetAuthUserByEmail (p_email : string)     (* lines 53-55 *)
| InsertProfile (email auth_id : string)       (* lines 65-72 *)
| SelectLatestSubscription (login_id : string) (* lines 95-100 *).

(** The Supabase client: the answer to each query. *)
Record SupabaseClient := mkClient {
  select_profile_by_email : string -> Settled Profile.t;
  select_profiles_ilike_email : string -> Settled (list Profile.t);
  rpc_get_auth_user_by_email : string -> Settled string;
  insert_profile : string -> string -> Settled Profile.t;
  select_latest_subscription : string -> Settled (list TierRow.t)
}.

(** Actions of the hook, logged in the order they happen. *)
Inductive Event : Type :=
| Await (q : Query)
| SetTier (v : string)
| SetLoading (v : bool)
| SetDiagnostics (v : DiagnosticData.t)
| PushStage (label : string)
| ConsoleLog
| ConsoleError.

(** The three [useState] cells of the hook. *)
Module Hook.
Record state := mk {
  tier : string;
  loading : bool;
  diagnostics : DiagnosticData.t
}.

(** Lines 14-16. *)
Definition initial : state := mk "free" true DiagnosticData.empty.
End Hook.

(** The machine the routine runs on: the React cells, the local
    [diagnosticData] object of the running resolution, and the log. *)
Record Machine := mkMachine {
  hook : Hook.state;
  diagnosticData : DiagnosticData.t;
  trace : list Event
}.

Definition mounted : Machine := mkMachine Hook.initial DiagnosticData.empty [].

(* ================================================================== *)
(** ** The monad of the routine: state, log and exceptions *)

Inductive Completion (A : Type) : Type :=
| Normal (a : A)
| Abrupt (thrown : Thrown).
Arguments Normal {A} _.
Arguments Abrupt {A} _.

Definition M (A : Type) : Type := Machine -> Completion A * Machine.

Definition ret {A} (a : A) : M A := fun s => (Normal a, s).

Definition bind {A B} (m : M A) (k : A -> M B) : M B :=
  fun s =>
    match m s with
    | (Normal a, s') => k a s'
    | (Abrupt e, s') => (Abrupt e, s')
    end.

Declare Scope routine_scope.
Delimit Scope routine_scope with routine.
Notation "x <- m ;; k" := (bind m (fun x => k))
  (at level 61, m at next level, right associativity) : routine_scope.
Notation "m ;; k" := (bind m (fun _ => k))
  (at level 61, right associativity) : routine_scope.
Local Open Scope routine_scope.

(** [throw e] *)
Definition throw {A} (e : Thrown) : M A := fun s => (Abrupt e, s).

(** [try { body } catch (error) { handler error }] *)
Definition try_catch {A} (body : M A) (handler : Thrown -> M A) : M A :=
  fun s =>
    match body s with
    | (Normal a, s') => (Normal a, s')
    | (Abrupt e, s') => handler e s'
    end.

(** [try { body } finally { final }]: [final] always runs; when it
    completes normally the completion of [body] stands. *)
Definition try_finally {A} (body : M A) (final : M unit) : M A :=
  fun s =>
    match body s with
    | (r, s') =>
        match final s' with
        | (Normal _, s'') => (r, s'')
        | (Abrupt e, s'') => (Abrupt e, s'')
        end
    end.

Definition log (e : Event) (s : Machine) : Machine :=
  mkMachine (hook s) (diagnosticData s) (trace s ++ [e]).

(** [await query]: the query is issued, then the routine resumes with the
    response or the rejection reason is thrown. *)
Definition await {D} (q : Query) (answer : Settled D) : M (Response D) :=
  fun s =>
    match answer with
    | Fulfilled r => (Normal r, log (Await q) s)
    | Rejected reason => (Abrupt reason, log (Await q) s)
    end.

Definition setTier (v : string) : M unit :=
  fun s =>
    (Normal tt,
     log (SetTier v)
       (mkMachine (Hook.mk v (Hook.loading (hook s)) (Hook.diagnostics (hook s)))
          (diagnosticData s) (trace s))).

Definition setLoading (v : bool) : M unit :=
  fun s =>
    (Normal tt,
     log (SetLoading v)
       (mkMachine (Hook.mk (Hook.tier (hook s)) v (Hook.diagnostics (hook s)))
          (diagnosticData s) (trace s))).

Definition setDiagnostics (v : DiagnosticData.t) : M unit :=
  fun s =>
    (Normal tt,
     log (SetDiagnostics v)
       (mkMachine (Hook.mk (Hook.tier (hook s)) (Hook.loading (hook s)) v)
          (diagnosticData s) (trace s))).

Definition console_log : M unit := fun s => (Normal tt, log ConsoleLog s).
Definition console_error : M unit := fun s => (Normal tt, log ConsoleError s).

(** Reading and updating the local [diagnosticData] object. *)
Definition read_diagnosticData : M DiagnosticData.t :=
  fun s => (Normal (diagnosticData s), s).

Definition update_diagnosticData (f : DiagnosticData.t -> DiagnosticData.t) : M unit :=
  fun s => (Normal tt, mkMachine (hook s) (f (diagnosticData s)) (trace s)).

(** [const diagnosticData = { profileLookupStages: [] }] (line 26). *)
Definition new_diagnosticData : M unit :=
  fun s => (Normal tt, mkMachine (hook s) DiagnosticData.empty (trace s)).

(** [diagnosticData.profileLookupStages.push(label)] *)
Definition push (label : string) : M unit :=
  fun s =>
    (Normal tt,
     log (PushStage label)
       (mkMachine (hook s) (DiagnosticData.push_stage label (diagnosticData s)) (trace s))).

(* ================================================================== *)
(** ** The routine [resolveSubscriptionTier] (lines 24-133) *)

Definition label_stage1 : string := "Stage 1: Exact email match".
Definition label_stage2 : string := "Stage 2: Case-insensitive match".
Definition label_stage3 : string := "Stage 3: RPC lookup".
Definition label_stage4 : string := "Stage 4: Emergency profile creation".
Definition label_created : string := "✅ Emergency profile created successfully".
Definition label_fatal : string := "❌ FATAL: Profile creation failed".

(** Lines 30-35: the exact match; only [data] of the response is bound. *)
Definition stage1 (supabase : SupabaseClient) (user : User.t) : M (option Profile.t) :=
  push label_stage1 ;;
  r <- await (SelectProfileByEmail (User.email user))
         (select_profile_by_email supabase (User.email user)) ;;
  ret (data r).

(** Lines 44-46: the case-insensitive rows are accepted when
    [ciMatchProfiles?.length === 1], and then [ciMatchProfiles[0]] is taken. *)
Definition single_match (ciMatchProfiles : option (list Profile.t)) : option Profile.t :=
  match ciMatchProfiles with
  | Some rows => if Nat.eqb (length rows) 1 then nth_error rows 0 else None
  | None => None
  end.

(** Lines 37-47: [if (!exactMatchProfile) { ... }]. *)
Definition stage2 (supabase : SupabaseClient) (user : User.t)
    (exactMatchProfile : option Profile.t) : M (option Profile.t) :=
  match exactMatchProfile with
  | Some _ => ret exactMatchProfile
  | None =>
      push label_stage2 ;;
      r <- await (SelectProfilesILikeEmail (User.email user))
             (select_profiles_ilike_email supabase (User.email user)) ;;
      ret (single_match (data r))
  end.

(** Lines 57-59: [if (rpcResult) { exactMatchProfile = { id: rpcResult } }]. *)
Definition profile_of_rpc (rpcResult : option string) : option Profile.t :=
  match rpcResult with
  | Some v => if Js.truthy v then Some (Profile.mk v) else None
  | None => None
  end.

(** Lines 49-60. *)
Definition stage3 (supabase : SupabaseClient) (user : User.t)
    (exactMatchProfile : option Profile.t) : M (option Profile.t) :=
  match exactMatchProfile with
  | Some _ => ret exactMatchProfile
  | None =>
      push label_stage3 ;;
      let encodedEmail := Js.encodeURIComponent (User.email user) in
      r <- await (RpcGetAuthUserByEmail encodedEmail)
             (rpc_get_auth_user_by_email supabase encodedEmail) ;;
      ret (profile_of_rpc (data r))
  end.

(** Lines 62-92: the insert, inside its own [try]/[catch] that records the
    fatal label and rethrows. *)
Definition stage4 (supabase : SupabaseClient) (user : User.t)
    (exactMatchProfile : option Profile.t) : M (option Profile.t) :=
  match exactMatchProfile with
  | Some _ => ret exactMatchProfile
  | None =>
      push label_stage4 ;;
      try_catch
        (r <- await (InsertProfile (User.email user) (User.id user))
                (insert_profile supabase (User.email user) (User.id user)) ;;
         match error r with
         | Some profileError =>
             console_error ;;
             throw (ErrorInstance
                      ("Profile creation blocked by RLS: " ++ PostgrestError.message profileError))
         | None =>
             push label_created ;;
             ret (data r)
         end)
        (fun error => push label_fatal ;; throw error)
  end.

(** [subscriptionData?.[0]?.tier] *)
Definition first_tier (subscriptionData : option (list TierRow.t)) : option string :=
  match subscriptionData with
  | Some rows =>
      match nth_error rows 0 with
      | Some row => Some (TierRow.tier row)
      | None => None
      end
  | None => None
  end.

(** Line 119: [subscriptionData?.[0]?.tier || 'free']. *)
Definition activeTier (subscriptionData : option (list TierRow.t)) : string :=
  Js.or_else (first_tier subscriptionData) "free".

(** Lines 94-123. *)
Definition subscription_lookup (supabase : SupabaseClient) (user : User.t) : M unit :=
  r <- await (SelectLatestSubscription (User.id user))
         (select_latest_subscription supabase (User.id user)) ;;
  console_log ;;
  match error r with
  | Some subscriptionError =>
      update_diagnosticData
        (DiagnosticData.with_subscriptionError
           (PostgrestError.mk
              (PostgrestError.message subscriptionError)
              (PostgrestError.details subscriptionError)
              (PostgrestError.hint subscriptionError)
              (PostgrestError.code subscriptionError))) ;;
      throw (ErrorObject subscriptionError)
  | None =>
      let activeTier := activeTier (data r) in
      update_diagnosticData (DiagnosticData.with_finalTier activeTier) ;;
      setTier activeTier ;;
      d <- read_diagnosticData ;;
      setDiagnostics d
  end.

(** Lines 29-92: the four lookup stages in sequence; [exactMatchProfile] is
    the variable each stage may assign. *)
Definition profile_cascade (supabase : SupabaseClient) (user : User.t) : M (option Profile.t) :=
  p1 <- stage1 supabase user ;;
  p2 <- stage2 supabase user p1 ;;
  p3 <- stage3 supabase user p2 ;;
  stage4 supabase user p3.

(** The body of the outer [try] (lines 29-123). *)
Definition resolve_body (supabase : SupabaseClient) (user : User.t) : M unit :=
  _ <- profile_cascade supabase user ;;
  subscription_lookup supabase user.

(** The outer [catch] (lines 124-129). *)
Definition resolve_catch (error : Thrown) : M unit :=
  console_error ;;
  d <- read_diagnosticData ;;
  setDiagnostics (DiagnosticData.with_profileError (error_text error) d).

Definition resolveSubscriptionTier (supabase : SupabaseClient) (user : User.t) : M unit :=
  setLoading true ;;
  new_diagnosticData ;;
  try_finally
    (try_catch (resolve_body supabase user) resolve_catch)
    (setLoading false).

(** The effect of the hook (lines 18-136): it runs on mount and whenever
    [user] changes. *)
Definition useSubscriptionTier_effect (supabase : SupabaseClient) (user : option User.t) : M unit :=
  match user with
  | None => setLoading false
  | Some u => resolveSubscriptionTier supabase u
  end.

(** The machine after one run of the effect. *)
Definition after_effect (supabase : SupabaseClient) (user : option User.t) (s : Machine) : Machine :=
  snd (useSubscriptionTier_effect supabase user s).

(** What the hook returns (line 138) after the effect has run. *)
Definition useSubscriptionTier (supabase : SupabaseClient) (user : option User.t)
    (s : Machine) : Hook.state :=
  hook (after_effect supabase user s).

(** The actions performed by one run of the effect: what it added to the
    log. *)
Definition actions (supabase : SupabaseClient) (user : option User.t) (s : Machine) : list Event :=
  skipn (length (trace s)) (trace (after_effect supabase user s)).

(** A life of the hook: the effect runs once per observed identity, each
    time against the backend as it then is, each run completing before the
    next starts. *)
Fixpoint run_effects (renders : list (SupabaseClient * option User.t)) (s : Machine) : Machine :=
  match renders with
  | [] => s
  | (supabase, user) :: rest => run_effects rest (after_effect supabase user s)
  end.

(* ================================================================== *)
(** ** The subscription query read on a table

    Lines 95-100 build the query
    [from('subscriptions').select('tier').eq('login_id', user.id)
     .order('created_at', { ascending: false }).limit(1)].
    On a table of rows it filters, orders newest first, keeps one row and
    projects the [tier] column. *)

Definition eq_login_id (uid : string) (rows : list Subscription.t) : list Subscription.t :=
  filter (fun r => String.eqb (Subscription.login_id r) uid) rows.

Fixpoint insert_newest_first (r : Subscription.t) (sorted : list Subscription.t)
    : list Subscription.t :=
  match sorted with
  | [] => [r]
  | x :: rest =>
      if (Subscription.created_at x <=? Subscription.created_at r)%Z
      then r :: x :: rest
      else x :: insert_newest_first r rest
  end.

Definition order_created_at_desc (rows : list Subscription.t) : list Subscription.t :=
  fold_right insert_newest_first [] rows.

Definition limit (n : nat) (rows : list Subscription.t) : list Subscription.t :=
  firstn n rows.

Definition select_tier (rows : list Subscription.t) : list TierRow.t :=
  map (fun r => TierRow.mk (Subscription.tier r)) rows.

Definition latest_rows (table : list Subscription.t) (uid : string) : list Subscription.t :=
  limit 1 (order_created_at_desc (eq_login_id uid table)).

Definition latest_subscription_query (table : list Subscription.t) (uid : string)
    : list TierRow.t :=
  select_tier (latest_rows table uid).

(** The client answers the subscription query from [table], without error. *)
Definition answers_from_table (supabase : SupabaseClient) (table : list Subscription.t) : Prop :=
  forall uid,
    select_latest_subscription supabase uid =
    Fulfilled (mkResponse (Some (latest_subscription_query table uid)) None).

(** [r] is a row of [uid] in [table] with the latest creation timestamp. *)
Definition newest_row (table : list Subscription.t) (uid : string) (r : Subscription.t) : Prop :=
  In r table /\ Subscription.login_id r = uid /\
  forall r', In r' table -> Subscription.login_id r' = uid ->
             (Subscription.created_at r' <= Subscription.created_at r)%Z.

(** [a] is at least as recent as [b]. *)
Definition newer_or_same (a b : Subscription.t) : Prop :=
  (Subscription.created_at b <= Subscription.created_at a)%Z.

(** The subscription query was awaited for [uid]. *)
Definition reaches_subscription_query (uid : string) (t : list Event) : Prop :=
  In (Await (SelectLatestSubscription uid)) t.

(** The queries awaited, in order. *)
Fixpoint queries (t : list Event) : list Query :=
  match t with
  | [] => []
  | Await q :: rest => q :: queries rest
  | _ :: rest => queries rest
  end.

(** The labels pushed on the stage list, in order. *)
Fixpoint pushed (t : list Event) : list string :=
  match t with
  | [] => []
  | PushStage label :: rest => label :: pushed rest
  | _ :: rest => pushed rest
  end.

(** The values passed to [setTier], in order. *)
Fixpoint tiers_set (t : list Event) : list string :=
  match t with
  | [] => []
  | SetTier v :: rest => v :: tiers_set rest
  | _ :: rest => tiers_set rest
  end.

(** The values passed to [setDiagnostics], in order. *)
Fixpoint diagnostics_set (t : list Event) : list DiagnosticData.t :=
  match t with
  | [] => []
  | SetDiagnostics v :: rest => v :: diagnostics_set rest
  | _ :: rest => diagnostics_set rest
  end.

(* ------------------------------------------------------------------ *)
(** *** Sample backends and identities *)

Definition no_data {D} : Settled D := Fulfilled (mkResponse None None).

Definition failed {D} (e : PostgrestError.t) : Settled D := Fulfilled (mkResponse None (Some e)).

Definition found {D} (d : D) : Settled D := Fulfilled (mkResponse (Some d) None).

Definition rls_denied : PostgrestError.t :=
  PostgrestError.mk "new row violates row-level security policy" "" "" "42501".

Definition alice : User.t := User.mk "u-1" "Alice+x@Example.io".

(** A backend over a subscriptions table where the exact match succeeds. *)
Definition known_profile_client (table : list Subscription.t) : SupabaseClient :=
  mkClient
    (fun _ => found (Profile.mk "p-1"))
    (fun _ => found [])
    (fun _ => no_data)
    (fun _ _ => failed rls_denied)
    (fun uid => found (latest_subscription_query table uid)).

(** A backend that knows no profile and refuses the insert. *)
Definition locked_out_client (table : list Subscription.t) : SupabaseClient :=
  mkClient
    (fun _ => no_data)
    (fun _ => found [])
    (fun _ => no_data)
    (fun _ _ => failed rls_denied)
    (fun uid => found (latest_subscription_query table uid)).

(** A backend whose subscription query fails after profile creation. *)
Definition broken_subscriptions_client : SupabaseClient :=
  mkClient
    (fun _ => no_data)
    (fun _ => found [Profile.mk "p-1"; Profile.mk "p-2"])
    (fun _ => found "")
    (fun _ _ => found (Profile.mk "p-9"))
    (fun _ => failed rls_denied).

(** A backend whose three lookup queries fail, and which then lets the
    profile be created and answers the subscription query. *)
Definition failing_lookups_client : SupabaseClient :=
  mkClient
    (fun _ => failed rls_denied)
    (fun _ => failed rls_denied)
    (fun _ => failed rls_denied)
    (fun _ _ => found (Profile.mk "p-9"))
    (fun _ => found [TierRow.mk "pro"]).

Definition sample_table : list Subscription.t :=
  [ Subscription.mk "u-1" "basic" 10;
    Subscription.mk "u-2" "enterprise" 99;
    Subscription.mk "u-1" "pro" 30;
    Subscription.mk "u-1" "trial" 20 ].

(* ------------------------------------------------------------------ *)
(** *** Notions used by the statements *)

(** What the [try] block of stage 4 throws when the insert fails: the
    rejection reason, or the [Error] built at line 83. *)
Definition insert_failure (answer : Settled Profile.t) : option Thrown :=
  match answer with
  | Rejected reason => Some reason
  | Fulfilled r =>
      match error r with
      | Some profileError =>
          Some (ErrorInstance
                  ("Profile creation blocked by RLS: " ++ PostgrestError.message profileError))
      | None => None
      end
  end.

(** A response with its [error] field erased. *)
Definition without_error {D} (answer : Settled D) : Settled D :=
  match answer with
  | Fulfilled r => Fulfilled (mkResponse (data r) None)
  | Rejected reason => Rejected reason
  end.

(** The client whose three lookup queries never report an error. *)
Definition drop_lookup_errors (supabase : SupabaseClient) : SupabaseClient :=
  mkClient
    (fun e => without_error (select_profile_by_email supabase e))
    (fun e => without_error (select_profiles_ilike_email supabase e))
    (fun e => without_error (rpc_get_auth_user_by_email supabase e))
    (insert_profile supabase)
    (select_latest_subscription supabase).

(** The client with another answer to the case-insensitive query. *)
Definition with_ilike_answer (answer : Settled (list Profile.t)) (supabase : SupabaseClient)
    : SupabaseClient :=
  mkClient
    (select_profile_by_email supabase)
    (fun _ => answer)
    (rpc_get_auth_user_by_email supabase)
    (insert_profile supabase)
    (select_latest_subscription supabase).

(** Events a lookup stage may perform: anything but a setter call or the
    subscription query. *)
Definition lookup_event (e : Event) : bool :=
  match e with
  | Await (SelectLatestSubscription _) => false
  | Await _ => true
  | PushStage _ => true
  | ConsoleLog => true
  | ConsoleError => true
  | SetTier _ => false
  | SetLoading _ => false
  | SetDiagnostics _ => false
  end.

Definition push_all (labels : list string) (d : DiagnosticData.t) : DiagnosticData.t :=
  fold_left (fun acc label => DiagnosticData.push_stage label acc) labels d.

(** A computation that leaves the React cells alone, performs lookup events
    only, and changes [diagnosticData] by its pushes only. *)
Definition lookup_only {A} (m : M A) : Prop :=
  forall s, exists t,
    hook (snd (m s)) = hook s /\
    trace (snd (m s)) = trace s ++ t /\
    forallb lookup_event t = true /\
    diagnosticData (snd (m s)) = push_all (pushed t) (diagnosticData s).

(** A computation under which the stage list only grows, by exactly the
    labels it pushes. *)
Definition appends_only {A} (m : M A) : Prop :=
  forall s, exists t,
    trace (snd (m s)) = trace s ++ t /\
    DiagnosticData.profileLookupStages (diagnosticData (snd (m s))) =
    DiagnosticData.profileLookupStages (diagnosticData s) ++ pushed t.

(** The machine after lookup events [t]: the log grows by [t] and the
    stage list by the labels pushed in [t]. *)
Definition advance (t : list Event) (s : Machine) : Machine :=
  mkMachine (hook s) (push_all (pushed t) (diagnosticData s)) (trace s ++ t).

(** The machine on which the outer [try] starts (lines 25-26). *)
Definition try_entry (s : Machine) : Machine :=
  mkMachine (Hook.mk (Hook.tier (hook s)) true (Hook.diagnostics (hook s)))
    DiagnosticData.empty (trace s ++ [SetLoading true]).

(** The machine left by the outer [catch] and [finally] when [thrown] was
    thrown in state [s1]. *)
Definition caught (thrown : Thrown) (s1 : Machine) : Machine :=
  let d := DiagnosticData.with_profileError (error_text thrown) (diagnosticData s1) in
  mkMachine (Hook.mk (Hook.tier (hook s1)) false d) (diagnosticData s1)
    (trace s1 ++ [ConsoleError; SetDiagnostics d; SetLoading false]).

(** The machine once the subscription query of [user] was answered and the
    answer logged (lines 95-107). *)
Definition asked (user : User.t) (s1 : Machine) : Machine :=
  mkMachine (hook s1) (diagnosticData s1)
    (trace s1 ++ [Await (SelectLatestSubscription (User.id user)); ConsoleLog]).

(** The machine left when the response carried [subscriptionError]
    (lines 109-117, then the outer [catch] and [finally]). *)
Definition refused (subscriptionError : PostgrestError.t) (s2 : Machine) : Machine :=
  caught (ErrorObject subscriptionError)
    (mkMachine (hook s2)
       (DiagnosticData.with_subscriptionError subscriptionError (diagnosticData s2))
       (trace s2)).

(** The machine left by a resolution that found tier [v] (lines 119-123,
    then [finally]). *)
Definition resolved (v : string) (s2 : Machine) : Machine :=
  let d := DiagnosticData.with_finalTier v (diagnosticData s2) in
  mkMachine (Hook.mk v false d) d
    (trace s2 ++ [SetTier v; SetDiagnostics d; SetLoading false]).

(** The tier a table yields for [uid] through line 119. *)
Definition tier_of_table (table : list Subscription.t) (uid : string) : string :=
  activeTier (Some (latest_subscription_query table uid)).

(** The value of the [tier] cell is "free" or a tier some run of the effect
    got as the first row of the subscription response. *)
Definition tier_from_backend (renders : list (SupabaseClient * option User.t)) (v : string)
    : Prop :=
  v = "free" \/
  exists supabase user r,
    In (supabase, Some user) renders /\
    select_latest_subscription supabase (User.id user) = Fulfilled r /\
    error r = None /\
    first_tier (data r) = Some v.

(** What the first three stages and the start of the fourth do when none
    finds a profile, up to the awaited insert. *)
Definition events_until_insert (user : User.t) : list Event :=
  [ PushStage label_stage1;
    Await (SelectProfileByEmail (User.email user));
    PushStage label_stage2;
    Await (SelectProfilesILikeEmail (User.email user));
    PushStage label_stage3;
    Await (RpcGetAuthUserByEmail (Js.encodeURIComponent (User.email user)));
    PushStage label_stage4;
    Await (InsertProfile (User.email user) (User.id user)) ].

(** The reading of the subscription step under which the tier cell always
    ends up equal to the [tier] field of a newest row of the identity. *)
Definition tier_is_field_of_newest_row : Prop :=
  forall supabase user s table r,
    answers_from_table supabase table ->
    reaches_subscription_query (User.id user) (actions supabase (Some user) s) ->
    newest_row table (User.id user) r ->
    Hook.tier (useSubscriptionTier supabase (Some user) s) = Subscription.tier r.

(** The reading of the absent-identity branch under which the tier cell is
    "free" whenever the effect has just run without an identity. *)
Definition absent_identity_means_free : Prop :=
  forall renders supabase,
    Hook.tier (hook (run_effects (renders ++ [(supabase, None)]) mounted)) = "free".

(** A table whose only row for [alice] carries an empty tier. *)
Definition blank_tier_row : Subscription.t := Subscription.mk "u-1" "" 7.
Definition blank_tier_table : list Subscription.t :=
  [Subscription.mk "u-2" "pro" 9; blank_tier_row].

(* ------------------------------------------------------------------ *)
(** *** Notions used by the protocol and outcome statements *)

(** The four lookup queries of the cascade, in the order of lines 31-72. *)
Definition lookup_queries (user : User.t) : list Query :=
  [ SelectProfileByEmail (User.email user);
    SelectProfilesILikeEmail (User.email user);
    RpcGetAuthUserByEmail (Js.encodeURIComponent (User.email user));
    InsertProfile (User.email user) (User.id user) ].

(** The labels of the four stages, in order. *)
Definition stage_labels : list string :=
  [label_stage1; label_stage2; label_stage3; label_stage4].

(** The stage list of a cascade that ran [k] stages and completed as [r]:
    the first [k] stage labels, followed, when stage 4 ran, by the label of
    its outcome. *)
Definition stage_list_of {A} (k : nat) (r : Completion A) : list string :=
  firstn k stage_labels ++
  (if Nat.eqb k 4
   then match r with
        | Normal _ => [label_created]
        | Abrupt _ => [label_fatal]
        end
   else []).

(** The values passed to [setLoading], in order. *)
Fixpoint loadings_set (t : list Event) : list bool :=
  match t with
  | [] => []
  | SetLoading v :: rest => v :: loadings_set rest
  | _ :: rest => loadings_set rest
  end.

(** The tier cell after a resolution that called [setTier v] ([Some v]) or
    did not call it ([None]). *)
Definition tier_after (v : option string) (previous : string) : string :=
  match v with
  | Some x => x
  | None => previous
  end.

(** Value of a hexadecimal digit as written by [Js.hex_digit]. *)
Definition hex_value (c : ascii) : N :=
  let n := N_of_ascii c in
  (if n <? 65 then n - 48 else n - 55)%N.

(** Reading back a percent-encoded string: [%XY] becomes the byte [XY]
    and any other character stands for itself. *)
Fixpoint percent_decode (s : string) : string :=
  match s with
  | EmptyString => EmptyString
  | String c rest =>
      if Ascii.eqb c "%" then
        match rest with
        | String h (String l rest') =>
            String (ascii_of_N (16 * hex_value h + hex_value l)) (percent_decode rest')
        | _ => String c (percent_decode rest)
        end
      else String c (percent_decode rest)
  end.

(** [r] is the only newest row of [uid] in [table]: every other row of
    [uid] is strictly older. *)
Definition strictly_newest_row (table : list Subscription.t) (uid : string)
    (r : Subscription.t) : Prop :=
  In r table /\ Subscription.login_id r = uid /\
  forall r', In r' table -> Subscription.login_id r' = uid -> r' <> r ->
             (Subscription.created_at r' < Subscription.created_at r)%Z.

(** A backend that finds the profile through the RPC only. *)
Definition rpc_only_client (table : list Subscription.t) : SupabaseClient :=
  mkClient
    (fun _ => no_data)
    (fun _ => found [Profile.mk "p-1"; Profile.mk "p-2"])
    (fun _ => found "p-7")
    (fun _ _ => failed rls_denied)
    (fun uid => found (latest_subscription_query table uid)).

(** A backend whose exact-match promise rejects. *)
Definition offline_client : SupabaseClient :=
  mkClient
    (fun _ => Rejected (ErrorInstance "Failed to fetch"))
    (fun _ => found [])
    (fun _ => no_data)
    (fun _ _ => found (Profile.mk "p-9"))
    (fun _ => Rejected (ErrorInstance "Failed to fetch")).

(** A backend that knows the profile and whose subscription promise
    rejects. *)
Definition flaky_subscriptions_client : SupabaseClient :=
  mkClient
    (fun _ => found (Profile.mk "p-1"))
    (fun _ => found [])
    (fun _ => no_data)
    (fun _ _ => found (Profile.mk "p-9"))
    (fun _ => Rejected (ErrorInstance "Failed to fetch")).

(** A backend that knows no profile, whose RPC returns the empty string,
    and that lets the profile be created without returning it. *)
Definition creating_client (table : list Subscription.t) : SupabaseClient :=
  mkClient
    (fun _ => no_data)
    (fun _ => found [])
    (fun _ => found "")
    (fun _ _ => no_data)
    (fun uid => found (latest_subscription_query table uid)).

(** The reading of the failed-insert path under which the tier cell is
    "free" after every such resolution. *)
Definition failed_insert_means_free : Prop :=
  forall supabase user s r1 r2 r3 thrown,
    select_profile_by_email supabase (User.email user) = Fulfilled r1 ->
    data r1 = None ->
    select_profiles_ilike_email supabase (User.email user) = Fulfilled r2 ->
    single_match (data r2) = None ->
    rpc_get_auth_user_by_email supabase (Js.encodeURIComponent (User.email user))
      = Fulfilled r3 ->
    profile_of_rpc (data r3) = None ->
    insert_failure (insert_profile supabase (User.email user) (User.id user)) = Some thrown ->
    Hook.tier (useSubscriptionTier supabase (Some user) s) = "free".

(** The reading of the exact-match path under which the tier cell always
    ends up equal to the [tier] field of a newest row of the identity. *)
Definition exact_match_takes_tier_of_newest_row : Prop :=
  forall supabase user s r1 p table r,
    select_profile_by_email supabase (User.email user) = Fulfilled r1 ->
    data r1 = Some p ->
    answers_from_table supabase table ->
    newest_row table (User.id user) r ->
    Hook.tier (useSubscriptionTier supabase (Some user) s) = Subscription.tier r.

(* ================================================================== *)
(** ** Facts about the built-ins and the log projections *)

Example encodeURIComponent_alice :
  Js.encodeURIComponent (User.email alice) = "Alice%2Bx%40Example.io".
Proof. reflexivity. Qed.

Lemma or_else_cases (v : option string) (d : string) :
  Js.or_else v d = d \/ v = Some (Js.or_else v d).
Proof.
  destruct v as [s|]; simpl; [|now left].
  destruct (Js.truthy s); [now right | now left].
Qed.

Lemma queries_app t1 t2 : queries (t1 ++ t2) = queries t1 ++ queries t2.
Proof.
  induction t1 as [|e t1 IH]; simpl; [reflexivity|].
  destruct e; simpl; rewrite ?IH; reflexivity.
Qed.

Lemma pushed_app t1 t2 : pushed (t1 ++ t2) = pushed t1 ++ pushed t2.
Proof.
  induction t1 as [|e t1 IH]; simpl; [reflexivity|].
  destruct e; simpl; rewrite ?IH; reflexivity.
Qed.

Lemma tiers_set_app t1 t2 : tiers_set (t1 ++ t2) = tiers_set t1 ++ tiers_set t2.
Proof.
  induction t1 as [|e t1 IH]; simpl; [reflexivity|].
  destruct e; simpl; rewrite ?IH; reflexivity.
Qed.

Lemma diagnostics_set_app t1 t2 :
  diagnostics_set (t1 ++ t2) = diagnostics_set t1 ++ diagnostics_set t2.
Proof.
  induction t1 as [|e t1 IH]; simpl; [reflexivity|].
  destruct e; simpl; rewrite ?IH; reflexivity.
Qed.

Lemma lookup_events_set_no_tier t : forallb lookup_event t = true -> tiers_set t = [].
Proof.
  induction t as [|e t IH]; simpl; [reflexivity|].
  intros H. apply andb_true_iff in H. destruct H as [He Ht].
  destruct e; simpl in *; try discriminate; auto.
Qed.

Lemma lookup_events_set_no_diagnostics t :
  forallb lookup_event t = true -> diagnostics_set t = [].
Proof.
  induction t as [|e t IH]; simpl; [reflexivity|].
  intros H. apply andb_true_iff in H. destruct H as [He Ht].
  destruct e; simpl in *; try discriminate; auto.
Qed.

Lemma lookup_events_no_subscription_query t uid :
  forallb lookup_event t = true -> ~ In (Await (SelectLatestSubscription uid)) t.
Proof.
  intros H Hin. rewrite forallb_forall in H.
  specialize (H _ Hin). discriminate.
Qed.

Lemma push_all_app l1 l2 d : push_all (l1 ++ l2) d = push_all l2 (push_all l1 d).
Proof. unfold push_all. apply fold_left_app. Qed.

Lemma push_all_stages labels d :
  DiagnosticData.profileLookupStages (push_all labels d) =
  DiagnosticData.profileLookupStages d ++ labels.
Proof.
  revert d. induction labels as [|l labels IH]; intros d; simpl.
  - now rewrite app_nil_r.
  - rewrite IH. simpl. now rewrite <- app_assoc.
Qed.

Lemma push_all_fields labels d :
  DiagnosticData.finalTier (push_all labels d) = DiagnosticData.finalTier d /\
  DiagnosticData.subscriptionError (push_all labels d) = DiagnosticData.subscriptionError d /\
  DiagnosticData.profileError (push_all labels d) = DiagnosticData.profileError d.
Proof.
  revert d. induction labels as [|l labels IH]; intros d; simpl; [auto|].
  destruct (IH (DiagnosticData.push_stage l d)) as (H1 & H2 & H3).
  rewrite H1, H2, H3. auto.
Qed.

Lemma skipn_length_app {A} (l t : list A) : skipn (length l) (l ++ t) = t.
Proof. induction l; simpl; auto. Qed.

(* ================================================================== *)
(** ** The lookup stages touch nothing but the log and the stage list *)

Lemma lookup_only_ret {A} (a : A) : lookup_only (ret a).
Proof.
  intros s. exists []. simpl. rewrite app_nil_r. auto.
Qed.

Lemma lookup_only_throw {A} (e : Thrown) : lookup_only (@throw A e).
Proof.
  intros s. exists []. simpl. rewrite app_nil_r. auto.
Qed.

Lemma lookup_only_push label : lookup_only (push label).
Proof.
  intros s. exists [PushStage label]. simpl. auto.
Qed.

Lemma lookup_only_console_error : lookup_only console_error.
Proof.
  intros s. exists [ConsoleError]. simpl. auto.
Qed.

Lemma lookup_only_await {D} (q : Query) (answer : Settled D) :
  lookup_event (Await q) = true -> lookup_only (await q answer).
Proof.
  intros Hq s. exists [Await q]. unfold await.
  destruct answer;
    (split; [reflexivity|split; [reflexivity|split; [|reflexivity]]]);
    cbn [forallb]; rewrite Hq; reflexivity.
Qed.

Lemma lookup_only_bind {A B} (m : M A) (k : A -> M B) :
  lookup_only m -> (forall a, lookup_only (k a)) -> lookup_only (bind m k).
Proof.
  intros Hm Hk s. unfold bind.
  destruct (Hm s) as (t1 & Hh1 & Ht1 & Hf1 & Hd1).
  destruct (m s) as [[a|e] s1]; simpl in *.
  - destruct (Hk a s1) as (t2 & Hh2 & Ht2 & Hf2 & Hd2).
    exists (t1 ++ t2). rewrite Hh2, Ht2, Hd2, Hh1, Ht1, Hd1.
    rewrite forallb_app, Hf1, Hf2, pushed_app, push_all_app, app_assoc. auto.
  - exists t1. auto.
Qed.

Lemma lookup_only_try_catch {A} (body : M A) (handler : Thrown -> M A) :
  lookup_only body -> (forall e, lookup_only (handler e)) -> lookup_only (try_catch body handler).
Proof.
  intros Hm Hk s. unfold try_catch.
  destruct (Hm s) as (t1 & Hh1 & Ht1 & Hf1 & Hd1).
  destruct (body s) as [[a|e] s1]; simpl in *.
  - exists t1. auto.
  - destruct (Hk e s1) as (t2 & Hh2 & Ht2 & Hf2 & Hd2).
    exists (t1 ++ t2). rewrite Hh2, Ht2, Hd2, Hh1, Ht1, Hd1.
    rewrite forallb_app, Hf1, Hf2, pushed_app, push_all_app, app_assoc. auto.
Qed.

(** One step of a proof that a computation built from the primitives is
    [lookup_only]. *)
Ltac lookup_step :=
  first
    [ apply lookup_only_ret
    | apply lookup_only_throw
    | apply lookup_only_push
    | apply lookup_only_console_error
    | apply lookup_only_await; reflexivity
    | apply lookup_only_bind; [|intros ?]
    | apply lookup_only_try_catch; [|intros ?] ].

Lemma lookup_only_stage1 supabase user : lookup_only (stage1 supabase user).
Proof. unfold stage1. repeat lookup_step. Qed.

Lemma lookup_only_stage2 supabase user p : lookup_only (stage2 supabase user p).
Proof. unfold stage2. destruct p; repeat lookup_step. Qed.

Lemma lookup_only_stage3 supabase user p : lookup_only (stage3 supabase user p).
Proof. unfold stage3. destruct p; repeat lookup_step. Qed.

Lemma lookup_only_stage4 supabase user p : lookup_only (stage4 supabase user p).
Proof.
  unfold stage4. destruct p; repeat lookup_step.
  match goal with r : Response _ |- _ => destruct (error r) end; repeat lookup_step.
Qed.

Lemma lookup_only_profile_cascade supabase user : lookup_only (profile_cascade supabase user).
Proof.
  unfold profile_cascade.
  repeat first
    [ apply lookup_only_stage1 | apply lookup_only_stage2
    | apply lookup_only_stage3 | apply lookup_only_stage4
    | apply lookup_only_bind; [|intros ?] ].
Qed.

(* ================================================================== *)
(** ** The shape of one resolution *)

Lemma PostgrestError_eta (e : PostgrestError.t) :
  PostgrestError.mk (PostgrestError.message e) (PostgrestError.details e)
    (PostgrestError.hint e) (PostgrestError.code e) = e.
Proof. destruct e; reflexivity. Qed.

(** Two machines that differ by the bracketing of their logs. *)
Ltac same_machine :=
  cbn; unfold log; cbn; rewrite <- ?app_assoc; cbn; reflexivity.

(** A resolution is its lookup cascade followed by one of four endings. *)
Lemma resolution_shape supabase user s :
  after_effect supabase (Some user) s =
  match profile_cascade supabase user (try_entry s) with
  | (Abrupt thrown, s1) => caught thrown s1
  | (Normal _, s1) =>
      match select_latest_subscription supabase (User.id user) with
      | Rejected reason =>
          caught reason (log (Await (SelectLatestSubscription (User.id user))) s1)
      | Fulfilled r =>
          match error r with
          | Some subscriptionError => refused subscriptionError (asked user s1)
          | None => resolved (activeTier (data r)) (asked user s1)
          end
      end
  end.
Proof.
  unfold after_effect, useSubscriptionTier_effect, resolveSubscriptionTier, resolve_body.
  unfold bind at 1 2. cbn [setLoading new_diagnosticData log hook diagnosticData trace].
  unfold try_finally, try_catch, bind at 1.
  fold (try_entry s).
  destruct (profile_cascade supabase user (try_entry s)) as [[p|thrown] s1].
  - unfold subscription_lookup, bind at 1, await.
    destruct (select_latest_subscription supabase (User.id user)) as [r|reason].
    + unfold bind at 1. cbn [console_log log].
      destruct (error r) as [e|].
      * rewrite PostgrestError_eta.
        unfold refused, caught, asked. same_machine.
      * unfold resolved, asked. same_machine.
    + unfold caught. same_machine.
  - unfold caught. same_machine.
Qed.

(** The effect always completes normally: whatever is thrown inside the
    routine is caught by the outer [catch]. *)
Lemma effect_completes supabase user s :
  fst (useSubscriptionTier_effect supabase user s) = Normal tt.
Proof.
  destruct user as [u|]; [|reflexivity].
  unfold useSubscriptionTier_effect, resolveSubscriptionTier.
  unfold bind at 1 2. cbn [setLoading new_diagnosticData]. unfold try_finally, try_catch.
  match goal with |- context [resolve_body supabase u ?s0] =>
    destruct (resolve_body supabase u s0) as [[[]|e] s1] end; reflexivity.
Qed.

(** The cascade of a resolution, started on [try_entry s]. *)
Lemma cascade_frame supabase user s :
  exists t s1 r,
    profile_cascade supabase user (try_entry s) = (r, s1) /\
    Hook.tier (hook s1) = Hook.tier (hook s) /\
    trace s1 = trace s ++ SetLoading true :: t /\
    forallb lookup_event t = true /\
    diagnosticData s1 = push_all (pushed t) DiagnosticData.empty.
Proof.
  destruct (lookup_only_profile_cascade supabase user (try_entry s))
    as (t & Hh & Ht & Hf & Hd).
  destruct (profile_cascade supabase user (try_entry s)) as [r s1].
  exists t, s1, r. cbn [snd] in *. rewrite Hh, Ht, Hd. cbn.
  rewrite <- app_assoc. auto.
Qed.

(** The log of a run is the old log followed by the run's actions. *)
Lemma actions_of_trace supabase user s t :
  trace (after_effect supabase user s) = trace s ++ t ->
  actions supabase user s = t.
Proof.
  intros H. unfold actions. rewrite H. apply skipn_length_app.
Qed.

(** The logs of the four endings. *)
Lemma trace_caught thrown s1 :
  trace (caught thrown s1) =
  trace s1 ++ [ConsoleError;
               SetDiagnostics
                 (DiagnosticData.with_profileError (error_text thrown) (diagnosticData s1));
               SetLoading false].
Proof. reflexivity. Qed.

Lemma trace_refused user e s1 :
  trace (refused e (asked user s1)) =
  trace s1 ++ [Await (SelectLatestSubscription (User.id user)); ConsoleLog; ConsoleError;
               SetDiagnostics
                 (DiagnosticData.with_profileError "Unknown error"
                    (DiagnosticData.with_subscriptionError e (diagnosticData s1)));
               SetLoading false].
Proof. unfold refused, caught, asked. cbn [trace diagnosticData]. now rewrite <- app_assoc. Qed.

Lemma trace_resolved user v s1 :
  trace (resolved v (asked user s1)) =
  trace s1 ++ [Await (SelectLatestSubscription (User.id user)); ConsoleLog; SetTier v;
               SetDiagnostics (DiagnosticData.with_finalTier v (diagnosticData s1));
               SetLoading false].
Proof. unfold resolved, asked. cbn [trace diagnosticData]. now rewrite <- app_assoc. Qed.

Lemma trace_rejected user reason s1 :
  trace (caught reason (log (Await (SelectLatestSubscription (User.id user))) s1)) =
  trace s1 ++ [Await (SelectLatestSubscription (User.id user)); ConsoleError;
               SetDiagnostics
                 (DiagnosticData.with_profileError (error_text reason) (diagnosticData s1));
               SetLoading false].
Proof. unfold caught, log. cbn [trace diagnosticData]. now rewrite <- app_assoc. Qed.

Lemma actions_resolution supabase user s t s1 ending :
  trace s1 = trace s ++ SetLoading true :: t ->
  trace (after_effect supabase (Some user) s) = trace s1 ++ ending ->
  actions supabase (Some user) s = SetLoading true :: t ++ ending.
Proof.
  intros Ht Hs. apply actions_of_trace. rewrite Hs, Ht, <- app_assoc. reflexivity.
Qed.

(** Case analysis on a resolution: the cascade is run on [try_entry s], and
    [Hshape] then gives the machine after the effect. *)
Ltac resolution_cases supabase user s t s1 r Hc Htier Ht Hf Hd Hshape :=
  destruct (cascade_frame supabase user s) as (t & s1 & r & Hc & Htier & Ht & Hf & Hd);
  assert (Hshape := resolution_shape supabase user s);
  rewrite Hc in Hshape.

(* ================================================================== *)
(** ** Loading flag *)

(** C8. Every resolution attempt, whatever its path (success, a failure
    carried in a response, a rejected promise at any stage), finishes
    normally with the loading flag false, and the very last action of the
    attempt is [setLoading(false)]. *)
Theorem loading_cleared_after_every_attempt supabase user s :
  fst (useSubscriptionTier_effect supabase (Some user) s) = Normal tt /\
  Hook.loading (useSubscriptionTier supabase (Some user) s) = false /\
  exists t, actions supabase (Some user) s = t ++ [SetLoading false].
Proof.
  split; [apply effect_completes|].
  unfold useSubscriptionTier.
  resolution_cases supabase user s t s1 r Hc Htier Ht Hf Hd Hshape.
  destruct r as [p|thrown];
    [destruct (select_latest_subscription supabase (User.id user)) as [resp|reason];
     [destruct (error resp) as [e|]|]|];
    (split; [rewrite Hshape; reflexivity|]).
  - exists (SetLoading true :: t ++
            [Await (SelectLatestSubscription (User.id user)); ConsoleLog; ConsoleError;
             SetDiagnostics
               (DiagnosticData.with_profileError "Unknown error"
                  (DiagnosticData.with_subscriptionError e (diagnosticData s1)))]).
    rewrite (actions_resolution _ _ _ _ _ _ Ht (eq_trans (f_equal trace Hshape)
                                                   (trace_refused user e s1))).
    cbn. now rewrite <- app_assoc.
  - exists (SetLoading true :: t ++
            [Await (SelectLatestSubscription (User.id user)); ConsoleLog;
             SetTier (activeTier (data resp));
             SetDiagnostics
               (DiagnosticData.with_finalTier (activeTier (data resp)) (diagnosticData s1))]).
    rewrite (actions_resolution _ _ _ _ _ _ Ht (eq_trans (f_equal trace Hshape)
                                                   (trace_resolved user _ s1))).
    cbn. now rewrite <- app_assoc.
  - exists (SetLoading true :: t ++
            [Await (SelectLatestSubscription (User.id user)); ConsoleError;
             SetDiagnostics
               (DiagnosticData.with_profileError (error_text reason) (diagnosticData s1))]).
    rewrite (actions_resolution _ _ _ _ _ _ Ht (eq_trans (f_equal trace Hshape)
                                                   (trace_rejected user reason s1))).
    cbn. now rewrite <- app_assoc.
  - exists (SetLoading true :: t ++
            [ConsoleError;
             SetDiagnostics
               (DiagnosticData.with_profileError (error_text thrown) (diagnosticData s1))]).
    rewrite (actions_resolution _ _ _ _ _ _ Ht (eq_trans (f_equal trace Hshape)
                                                   (trace_caught thrown s1))).
    cbn. now rewrite <- app_assoc.
Qed.

(* ================================================================== *)
(** ** The subscription query on a table returns a newest row *)

Section Table.

Variable uid : string.

Lemma insert_newest_first_In r sorted x :
  In x (insert_newest_first r sorted) <-> x = r \/ In x sorted.
Proof.
  induction sorted as [|y rest IH]; simpl.
  - intuition congruence.
  - destruct (Subscription.created_at y <=? Subscription.created_at r)%Z; simpl.
    + intuition congruence.
    + rewrite IH. intuition congruence.
Qed.

Lemma order_created_at_desc_In rows x :
  In x (order_created_at_desc rows) <-> In x rows.
Proof.
  induction rows as [|r rows IH]; simpl; [tauto|].
  rewrite insert_newest_first_In, IH. intuition congruence.
Qed.

Lemma insert_newest_first_sorted r sorted :
  StronglySorted newer_or_same sorted ->
  StronglySorted newer_or_same (insert_newest_first r sorted).
Proof.
  induction 1 as [|y rest Hs IH Hall]; simpl.
  - repeat constructor.
  - destruct (Z.leb_spec (Subscription.created_at y) (Subscription.created_at r)) as [Hle|Hlt].
    + constructor; [now constructor|].
      constructor; [exact Hle|].
      rewrite Forall_forall in *. intros z Hz. specialize (Hall z Hz).
      unfold newer_or_same in *. lia.
    + constructor; [exact IH|].
      rewrite Forall_forall in *. intros z Hz.
      apply insert_newest_first_In in Hz. destruct Hz as [->|Hz].
      * unfold newer_or_same. lia.
      * now apply Hall.
Qed.

Lemma order_created_at_desc_sorted rows :
  StronglySorted newer_or_same (order_created_at_desc rows).
Proof.
  induction rows as [|r rows IH]; simpl; [constructor|].
  now apply insert_newest_first_sorted.
Qed.

Lemma eq_login_id_In table x :
  In x (eq_login_id uid table) <-> In x table /\ Subscription.login_id x = uid.
Proof.
  unfold eq_login_id. rewrite filter_In.
  destruct (String.eqb_spec (Subscription.login_id x) uid); intuition congruence.
Qed.

(** The query returns no row exactly when the table has none for [uid],
    and otherwise returns one row, a newest one of [uid]. *)
Lemma latest_rows_spec table :
  (latest_rows table uid = [] /\
   forall r, In r table -> Subscription.login_id r <> uid) \/
  (exists r, latest_rows table uid = [r] /\ newest_row table uid r).
Proof.
  unfold latest_rows, limit.
  pose proof (order_created_at_desc_sorted (eq_login_id uid table)) as Hs.
  pose proof (order_created_at_desc_In (eq_login_id uid table)) as Hin.
  destruct (order_created_at_desc (eq_login_id uid table)) as [|r rest].
  - left. split; [reflexivity|]. intros r Hr Hu.
    apply (proj2 (Hin r)). apply eq_login_id_In. auto.
  - right. exists r. split; [reflexivity|].
    assert (Hr : In r table /\ Subscription.login_id r = uid).
    { apply eq_login_id_In, Hin. now left. }
    destruct Hr as [Hr Hu]. repeat split; auto.
    intros r' Hr' Hu'.
    assert (Hmem : In r' (r :: rest)) by (apply Hin, eq_login_id_In; auto).
    apply StronglySorted_inv in Hs. destruct Hs as [_ Hall].
    destruct Hmem as [<-|Hmem]; [lia|].
    rewrite Forall_forall in Hall. exact (Hall r' Hmem).
Qed.

(** Line 119 on the answer computed from a table. *)
Lemma tier_of_table_spec table :
  (tier_of_table table uid = "free" /\
   forall r, In r table -> Subscription.login_id r <> uid) \/
  (exists r, newest_row table uid r /\
             tier_of_table table uid =
             if Js.truthy (Subscription.tier r) then Subscription.tier r else "free").
Proof.
  unfold tier_of_table, activeTier, first_tier, latest_subscription_query.
  destruct (latest_rows_spec table) as [[-> Hnone]|(r & -> & Hr)].
  - left. auto.
  - right. exists r. auto.
Qed.

End Table.

(* ================================================================== *)
(** ** The subscription step *)

(** A resolution whose cascade threw never awaits the subscription query. *)
Lemma aborted_cascade_skips_subscription supabase user s t s1 thrown :
  trace s1 = trace s ++ SetLoading true :: t ->
  forallb lookup_event t = true ->
  after_effect supabase (Some user) s = caught thrown s1 ->
  ~ reaches_subscription_query (User.id user) (actions supabase (Some user) s).
Proof.
  intros Ht Hf Hshape. unfold reaches_subscription_query.
  rewrite (actions_resolution _ _ _ _ _ _ Ht
             (eq_trans (f_equal trace Hshape) (trace_caught thrown s1))).
  intros [Hin|Hin]; [discriminate|].
  apply in_app_or in Hin. destruct Hin as [Hin|Hin].
  - exact (lookup_events_no_subscription_query _ _ Hf Hin).
  - simpl in Hin. intuition discriminate.
Qed.

(** C1 (amended). When the backend answers the subscription query from its
    table without error, a resolution that reaches that query ends with a
    tier decided by the identity's newest row: with no row for the identity
    the tier is "free" and [finalTier] is recorded as "free"; otherwise
    there is a row of the identity with the latest creation timestamp such
    that the tier is its [tier] field when that field is a non-empty string
    and "free" when the field is empty, and [finalTier] records that same
    value. *)
Theorem newest_subscription_row_decides_tier supabase user s table :
  answers_from_table supabase table ->
  reaches_subscription_query (User.id user) (actions supabase (Some user) s) ->
  (( forall r, In r table -> Subscription.login_id r <> User.id user) /\
   Hook.tier (useSubscriptionTier supabase (Some user) s) = "free" /\
   DiagnosticData.finalTier (Hook.diagnostics (useSubscriptionTier supabase (Some user) s))
     = Some "free")
  \/
  (exists r,
     newest_row table (User.id user) r /\
     Hook.tier (useSubscriptionTier supabase (Some user) s) =
       (if Js.truthy (Subscription.tier r) then Subscription.tier r else "free") /\
     DiagnosticData.finalTier (Hook.diagnostics (useSubscriptionTier supabase (Some user) s))
       = Some (Hook.tier (useSubscriptionTier supabase (Some user) s))).
Proof.
  intros Hans Hreach. unfold useSubscriptionTier.
  resolution_cases supabase user s t s1 r Hc Htier Ht Hf Hd Hshape.
  destruct r as [p|thrown].
  - rewrite (Hans (User.id user)) in Hshape. cbn [error data] in Hshape.
    fold (tier_of_table table (User.id user)) in Hshape. rewrite Hshape.
    cbn [resolved hook Hook.tier Hook.diagnostics DiagnosticData.with_finalTier
         DiagnosticData.finalTier].
    destruct (tier_of_table_spec (User.id user) table) as [[Hfree Hnone]|(r & Hr & Hv)].
    + left. rewrite Hfree. auto.
    + right. exists r. rewrite Hv. auto.
  - exfalso. exact (aborted_cascade_skips_subscription _ _ _ _ _ _ Ht Hf Hshape Hreach).
Qed.

Lemma newest_subscription_row_decides_tier_witness :
  exists r,
    newest_row sample_table (User.id alice) r /\
    Hook.tier (useSubscriptionTier (known_profile_client sample_table) (Some alice) mounted)
      = (if Js.truthy (Subscription.tier r) then Subscription.tier r else "free") /\
    DiagnosticData.finalTier
      (Hook.diagnostics
         (useSubscriptionTier (known_profile_client sample_table) (Some alice) mounted))
      = Some "pro".
Proof.
  destruct (newest_subscription_row_decides_tier
              (known_profile_client sample_table) alice mounted sample_table)
    as [(_ & Hfree & _)|(r & Hr & Hv & Hd)].
  - intros uid. reflexivity.
  - vm_compute. auto 10.
  - vm_compute in Hfree. discriminate.
  - exists r. auto.
Defined.

(** C1, as stated, fails: the only row of [alice] in [blank_tier_table]
    has the empty string as its tier, the resolution reaches the
    subscription query, and the tier ends up "free", not the row's field. *)
Lemma tier_is_field_of_newest_row_fails : ~ tier_is_field_of_newest_row.
Proof.
  intros H.
  specialize (H (known_profile_client blank_tier_table) alice mounted
                blank_tier_table blank_tier_row).
  assert (Hneq : "free" <> "") by discriminate.
  apply Hneq. apply H.
  - intros uid. reflexivity.
  - vm_compute. auto 10.
  - repeat split.
    + simpl. auto.
    + intros r' [<-|[<-|[]]]; simpl; intros Hu; [discriminate|].
      unfold blank_tier_row. simpl. lia.
Qed.

(** C6. When a resolution reaches the subscription query and the response
    carries an error, the resolution aborts into the outer [catch], which
    catches the error (the effect completes normally): the [tier] cell
    keeps the value it held, no [setTier] call happens, the
    published diagnostics carry the [subscriptionError] payload and a
    textual [profileError], no [finalTier], and after the query only the
    [catch] and [finally] blocks run. *)
Theorem subscription_error_leaves_tier supabase user s resp subscriptionError :
  reaches_subscription_query (User.id user) (actions supabase (Some user) s) ->
  select_latest_subscription supabase (User.id user) = Fulfilled resp ->
  error resp = Some subscriptionError ->
  fst (useSubscriptionTier_effect supabase (Some user) s) = Normal tt /\
  Hook.tier (useSubscriptionTier supabase (Some user) s) = Hook.tier (hook s) /\
  tiers_set (actions supabase (Some user) s) = [] /\
  DiagnosticData.subscriptionError (Hook.diagnostics (useSubscriptionTier supabase (Some user) s))
    = Some subscriptionError /\
  DiagnosticData.profileError (Hook.diagnostics (useSubscriptionTier supabase (Some user) s))
    = Some (error_text (ErrorObject subscriptionError)) /\
  DiagnosticData.finalTier (Hook.diagnostics (useSubscriptionTier supabase (Some user) s))
    = None /\
  exists t,
    actions supabase (Some user) s =
    t ++ [Await (SelectLatestSubscription (User.id user)); ConsoleLog; ConsoleError;
          SetDiagnostics (Hook.diagnostics (useSubscriptionTier supabase (Some user) s));
          SetLoading false].
Proof.
  intros Hreach Hsel Herr. split; [apply effect_completes|].
  unfold useSubscriptionTier.
  resolution_cases supabase user s t s1 r Hc Htier Ht Hf Hd Hshape.
  destruct r as [p|thrown].
  - rewrite Hsel, Herr in Hshape.
    pose proof (actions_resolution _ _ _ _ _ _ Ht
                  (eq_trans (f_equal trace Hshape) (trace_refused user _ s1))) as Hact.
    rewrite Hact, Hshape.
    cbn [refused caught asked hook diagnosticData Hook.tier Hook.diagnostics
         DiagnosticData.with_profileError DiagnosticData.with_subscriptionError
         DiagnosticData.subscriptionError DiagnosticData.profileError
         DiagnosticData.finalTier error_text].
    destruct (push_all_fields (pushed t) DiagnosticData.empty) as (Hft & _ & _).
    repeat split; auto.
    + change (tiers_set ([SetLoading true] ++ t ++
                [Await (SelectLatestSubscription (User.id user)); ConsoleLog; ConsoleError;
                 SetDiagnostics
                   (DiagnosticData.with_profileError "Unknown error"
                      (DiagnosticData.with_subscriptionError subscriptionError
                         (diagnosticData s1)));
                 SetLoading false]) = []).
      rewrite !tiers_set_app, (lookup_events_set_no_tier _ Hf). reflexivity.
    + rewrite Hd, Hft. reflexivity.
    + exists (SetLoading true :: t). reflexivity.
  - exfalso. exact (aborted_cascade_skips_subscription _ _ _ _ _ _ Ht Hf Hshape Hreach).
Qed.

Lemma subscription_error_leaves_tier_witness :
  Hook.tier (useSubscriptionTier broken_subscriptions_client (Some alice) mounted) = "free" /\
  tiers_set (actions broken_subscriptions_client (Some alice) mounted) = [] /\
  DiagnosticData.subscriptionError
    (Hook.diagnostics (useSubscriptionTier broken_subscriptions_client (Some alice) mounted))
    = Some rls_denied.
Proof.
  destruct (subscription_error_leaves_tier broken_subscriptions_client alice mounted
              (mkResponse None (Some rls_denied)) rls_denied)
    as (_ & Htier & Hset & Herr & _).
  - vm_compute. auto 20.
  - reflexivity.
  - reflexivity.
  - auto.
Defined.

(* ================================================================== *)
(** ** The lookup cascade *)

Lemma advance_advance t1 t2 s : advance t2 (advance t1 s) = advance (t1 ++ t2) s.
Proof.
  unfold advance. cbn [hook diagnosticData trace].
  now rewrite pushed_app, push_all_app, app_assoc.
Qed.

Lemma bind_normal {A B} (m : M A) (k : A -> M B) s a s' :
  m s = (Normal a, s') -> bind m k s = k a s'.
Proof. intros H. unfold bind. now rewrite H. Qed.

Lemma bind_abrupt {A B} (m : M A) (k : A -> M B) s e s' :
  m s = (Abrupt e, s') -> bind m k s = (Abrupt e, s').
Proof. intros H. unfold bind. now rewrite H. Qed.

Lemma push_run label s : push label s = (Normal tt, advance [PushStage label] s).
Proof. reflexivity. Qed.

Lemma await_fulfilled {D} q (answer : Settled D) r s :
  answer = Fulfilled r -> await q answer s = (Normal r, advance [Await q] s).
Proof.
  intros ->. unfold await, log, advance. cbn. destruct s as [h [l f se pe] tr]; reflexivity.
Qed.

Lemma await_rejected {D} q (answer : Settled D) reason s :
  answer = Rejected reason -> await q answer s = (Abrupt reason, advance [Await q] s).
Proof.
  intros ->. unfold await, log, advance. cbn. destruct s as [h [l f se pe] tr]; reflexivity.
Qed.

(** Stage 1 with a fulfilled query. *)
Lemma stage1_run supabase user r1 s :
  select_profile_by_email supabase (User.email user) = Fulfilled r1 ->
  stage1 supabase user s =
  (Normal (data r1),
   advance [PushStage label_stage1; Await (SelectProfileByEmail (User.email user))] s).
Proof.
  intros H1. unfold stage1.
  rewrite (bind_normal _ _ _ _ _ (push_run _ _)).
  rewrite (bind_normal _ _ _ _ _ (await_fulfilled _ _ _ _ H1)).
  unfold ret. now rewrite advance_advance.
Qed.

Lemma stage2_run supabase user r2 s :
  select_profiles_ilike_email supabase (User.email user) = Fulfilled r2 ->
  stage2 supabase user None s =
  (Normal (single_match (data r2)),
   advance [PushStage label_stage2; Await (SelectProfilesILikeEmail (User.email user))] s).
Proof.
  intros H2. unfold stage2.
  rewrite (bind_normal _ _ _ _ _ (push_run _ _)).
  rewrite (bind_normal _ _ _ _ _ (await_fulfilled _ _ _ _ H2)).
  unfold ret. now rewrite advance_advance.
Qed.

Lemma stage3_run supabase user r3 s :
  rpc_get_auth_user_by_email supabase (Js.encodeURIComponent (User.email user)) = Fulfilled r3 ->
  stage3 supabase user None s =
  (Normal (profile_of_rpc (data r3)),
   advance [PushStage label_stage3;
            Await (RpcGetAuthUserByEmail (Js.encodeURIComponent (User.email user)))] s).
Proof.
  intros H3. unfold stage3.
  rewrite (bind_normal _ _ _ _ _ (push_run _ _)). cbn zeta.
  rewrite (bind_normal _ _ _ _ _ (await_fulfilled _ _ _ _ H3)).
  unfold ret. now rewrite advance_advance.
Qed.

(** Stage 4 when the insert fails: the fatal label is the last push and
    the failure is rethrown. *)
Lemma stage4_failure supabase user thrown s :
  insert_failure (insert_profile supabase (User.email user) (User.id user)) = Some thrown ->
  exists t,
    stage4 supabase user None s = (Abrupt thrown, advance t s) /\
    queries t = [InsertProfile (User.email user) (User.id user)] /\
    pushed t = [label_stage4; label_fatal] /\
    forallb lookup_event t = true.
Proof.
  intros Hins. unfold stage4, insert_failure in *.
  rewrite (bind_normal _ _ _ _ _ (push_run _ _)).
  unfold try_catch.
  destruct (insert_profile supabase (User.email user) (User.id user)) as [r4|reason] eqn:Hq.
  - destruct (error r4) as [e|] eqn:He; [|discriminate]. injection Hins as <-.
    exists [PushStage label_stage4; Await (InsertProfile (User.email user) (User.id user));
            ConsoleError; PushStage label_fatal].
    split; [|auto].
    rewrite (bind_normal _ _ _ _ _ (await_fulfilled _ _ _ _ eq_refl)), He.
    unfold bind, console_error, throw, push, log, advance. cbn.
    rewrite <- !app_assoc. reflexivity.
  - injection Hins as <-.
    exists [PushStage label_stage4; Await (InsertProfile (User.email user) (User.id user));
            PushStage label_fatal].
    split; [|auto].
    rewrite (bind_abrupt _ _ _ _ _ (await_rejected _ _ _ _ eq_refl)).
    unfold bind, throw, push, log, advance. cbn.
    rewrite <- !app_assoc. reflexivity.
Qed.

(** The cascade when no stage finds a profile and the insert fails. *)
Lemma cascade_insert_failure supabase user s0 r1 r2 r3 thrown :
  select_profile_by_email supabase (User.email user) = Fulfilled r1 ->
  data r1 = None ->
  select_profiles_ilike_email supabase (User.email user) = Fulfilled r2 ->
  single_match (data r2) = None ->
  rpc_get_auth_user_by_email supabase (Js.encodeURIComponent (User.email user)) = Fulfilled r3 ->
  profile_of_rpc (data r3) = None ->
  insert_failure (insert_profile supabase (User.email user) (User.id user)) = Some thrown ->
  exists t,
    profile_cascade supabase user s0 = (Abrupt thrown, advance t s0) /\
    queries t = queries (events_until_insert user) /\
    pushed t = [label_stage1; label_stage2; label_stage3; label_stage4; label_fatal] /\
    forallb lookup_event t = true.
Proof.
  intros H1 Hd1 H2 Hd2 H3 Hd3 Hins. unfold profile_cascade.
  rewrite (bind_normal _ _ _ _ _ (stage1_run _ _ _ _ H1)), Hd1.
  rewrite (bind_normal _ _ _ _ _ (stage2_run _ _ _ _ H2)), Hd2.
  rewrite (bind_normal _ _ _ _ _ (stage3_run _ _ _ _ H3)), Hd3.
  destruct (stage4_failure supabase user thrown
              (advance [PushStage label_stage3;
                        Await (RpcGetAuthUserByEmail (Js.encodeURIComponent (User.email user)))]
                 (advance [PushStage label_stage2;
                           Await (SelectProfilesILikeEmail (User.email user))]
                    (advance [PushStage label_stage1;
                              Await (SelectProfileByEmail (User.email user))] s0))) Hins)
    as (t4 & Hrun & Hq4 & Hp4 & Hf4).
  rewrite Hrun, !advance_advance.
  eexists. split; [reflexivity|].
  rewrite !queries_app, !pushed_app, !forallb_app, Hq4, Hp4, Hf4. auto.
Qed.

(** C2 (amended). When stages 1-3 find no profile and the stage-4 insert
    fails (an error in the response, or a rejected promise), the resolution
    aborts, the failure being caught by the outer [catch]: exactly the four lookup queries are awaited, the insert once and
    the subscription query never; the published stage list ends with the
    fatal label; a textual [profileError] is published; no [setTier] call
    happens and the tier cell keeps the value it held before the
    resolution, whatever that value is, so a tier that was "free" remains
    "free". *)
Theorem insert_failure_aborts_resolution supabase user s r1 r2 r3 thrown :
  select_profile_by_email supabase (User.email user) = Fulfilled r1 ->
  data r1 = None ->
  select_profiles_ilike_email supabase (User.email user) = Fulfilled r2 ->
  single_match (data r2) = None ->
  rpc_get_auth_user_by_email supabase (Js.encodeURIComponent (User.email user)) = Fulfilled r3 ->
  profile_of_rpc (data r3) = None ->
  insert_failure (insert_profile supabase (User.email user) (User.id user)) = Some thrown ->
  fst (useSubscriptionTier_effect supabase (Some user) s) = Normal tt /\
  queries (actions supabase (Some user) s) =
    [ SelectProfileByEmail (User.email user);
      SelectProfilesILikeEmail (User.email user);
      RpcGetAuthUserByEmail (Js.encodeURIComponent (User.email user));
      InsertProfile (User.email user) (User.id user) ] /\
  ~ reaches_subscription_query (User.id user) (actions supabase (Some user) s) /\
  DiagnosticData.profileLookupStages
    (Hook.diagnostics (useSubscriptionTier supabase (Some user) s)) =
    [label_stage1; label_stage2; label_stage3; label_stage4; label_fatal] /\
  DiagnosticData.profileError
    (Hook.diagnostics (useSubscriptionTier supabase (Some user) s)) =
    Some (error_text thrown) /\
  tiers_set (actions supabase (Some user) s) = [] /\
  Hook.tier (useSubscriptionTier supabase (Some user) s) = Hook.tier (hook s) /\
  (Hook.tier (hook s) = "free" ->
   Hook.tier (useSubscriptionTier supabase (Some user) s) = "free").
Proof.
  intros H1 Hd1 H2 Hd2 H3 Hd3 Hins.
  destruct (cascade_insert_failure supabase user (try_entry s) r1 r2 r3 thrown
              H1 Hd1 H2 Hd2 H3 Hd3 Hins) as (t & Hc & Hq & Hp & Hf).
  assert (Hshape := resolution_shape supabase user s). rewrite Hc in Hshape.
  assert (Ht : trace (advance t (try_entry s)) = trace s ++ SetLoading true :: t).
  { unfold advance, try_entry. cbn [trace]. now rewrite <- app_assoc. }
  pose proof (actions_resolution _ _ _ _ _ _ Ht
                (eq_trans (f_equal trace Hshape) (trace_caught thrown _))) as Hact.
  assert (Htier : Hook.tier (useSubscriptionTier supabase (Some user) s) = Hook.tier (hook s)).
  { unfold useSubscriptionTier. rewrite Hshape. reflexivity. }
  split; [apply effect_completes|].
  repeat split.
  - rewrite Hact. cbn [queries]. rewrite queries_app, Hq. reflexivity.
  - exact (aborted_cascade_skips_subscription _ _ _ _ _ _ Ht Hf Hshape).
  - unfold useSubscriptionTier. rewrite Hshape.
    cbn [caught hook Hook.diagnostics DiagnosticData.with_profileError
         DiagnosticData.profileLookupStages advance diagnosticData try_entry].
    rewrite push_all_stages, Hp. reflexivity.
  - unfold useSubscriptionTier. rewrite Hshape. reflexivity.
  - rewrite Hact. cbn [tiers_set].
    rewrite tiers_set_app, (lookup_events_set_no_tier _ Hf). reflexivity.
  - exact Htier.
  - intros Hfree. now rewrite Htier.
Qed.

Lemma insert_failure_aborts_resolution_witness :
  queries (actions (locked_out_client sample_table) (Some alice) mounted) =
    [ SelectProfileByEmail "Alice+x@Example.io";
      SelectProfilesILikeEmail "Alice+x@Example.io";
      RpcGetAuthUserByEmail "Alice%2Bx%40Example.io";
      InsertProfile "Alice+x@Example.io" "u-1" ] /\
  Hook.tier (useSubscriptionTier (locked_out_client sample_table) (Some alice) mounted) = "free".
Proof.
  destruct (insert_failure_aborts_resolution (locked_out_client sample_table) alice mounted
              (mkResponse None None) (mkResponse (Some []) None) (mkResponse None None)
              (ErrorInstance
                 "Profile creation blocked by RLS: new row violates row-level security policy"))
    as (_ & Hq & _ & _ & _ & _ & _ & Hfree); try reflexivity.
  split; [exact Hq | apply Hfree; reflexivity].
Defined.

(** C2, as stated, fails: after a resolution that set the tier to "pro",
    a resolution whose stages 1-3 find no profile and whose insert is
    refused leaves the tier at "pro", not "free". *)
Lemma failed_insert_means_free_fails : ~ failed_insert_means_free.
Proof.
  intros H.
  specialize (H (locked_out_client sample_table) alice
                (run_effects [(known_profile_client sample_table, Some alice)] mounted)
                (mkResponse None None) (mkResponse (Some []) None) (mkResponse None None)
                (ErrorInstance
                   "Profile creation blocked by RLS: new row violates row-level security policy")
                eq_refl eq_refl eq_refl eq_refl eq_refl eq_refl eq_refl).
  vm_compute in H. discriminate.
Qed.

(* ================================================================== *)
(** ** Anatomy of a resolution *)

(** The actions of a resolution are [setLoading(true)], the lookup events
    [t] of the cascade, then an ending that pushes nothing, awaits the
    subscription query exactly when the cascade completed, and publishes
    diagnostics once, with the stage list the cascade pushed. *)
Lemma resolution_anatomy supabase user s :
  exists t s1 r,
    profile_cascade supabase user (try_entry s) = (r, s1) /\
    trace s1 = trace s ++ SetLoading true :: t /\
    forallb lookup_event t = true /\
    exists ending,
      actions supabase (Some user) s = SetLoading true :: t ++ ending /\
      pushed ending = [] /\
      queries ending =
        match r with
        | Normal _ => [SelectLatestSubscription (User.id user)]
        | Abrupt _ => []
        end /\
      diagnostics_set ending = [Hook.diagnostics (useSubscriptionTier supabase (Some user) s)] /\
      DiagnosticData.profileLookupStages
        (Hook.diagnostics (useSubscriptionTier supabase (Some user) s)) = pushed t.
Proof.
  unfold useSubscriptionTier.
  resolution_cases supabase user s t s1 r Hc Htier Ht Hf Hd Hshape.
  exists t, s1, r. repeat (split; [assumption || reflexivity|]).
  assert (Hstages : DiagnosticData.profileLookupStages (diagnosticData s1) = pushed t).
  { rewrite Hd, push_all_stages. reflexivity. }
  destruct r as [p|thrown];
    [destruct (select_latest_subscription supabase (User.id user)) as [resp|reason];
     [destruct (error resp) as [e|]|]|].
  - eexists. split.
    + exact (actions_resolution _ _ _ _ _ _ Ht
               (eq_trans (f_equal trace Hshape) (trace_refused user e s1))).
    + rewrite Hshape. cbn. auto.
  - eexists. split.
    + exact (actions_resolution _ _ _ _ _ _ Ht
               (eq_trans (f_equal trace Hshape) (trace_resolved user _ s1))).
    + rewrite Hshape. cbn. auto.
  - eexists. split.
    + exact (actions_resolution _ _ _ _ _ _ Ht
               (eq_trans (f_equal trace Hshape) (trace_rejected user reason s1))).
    + rewrite Hshape. cbn. auto.
  - eexists. split.
    + exact (actions_resolution _ _ _ _ _ _ Ht
               (eq_trans (f_equal trace Hshape) (trace_caught thrown s1))).
    + rewrite Hshape. cbn. auto.
Qed.

(** The lookup events of a resolution are those of its cascade. *)
Lemma cascade_events_known supabase user s t t0 r s1 :
  profile_cascade supabase user (try_entry s) = (r, s1) ->
  trace s1 = trace s ++ SetLoading true :: t ->
  forall r0, profile_cascade supabase user (try_entry s) = (r0, advance t0 (try_entry s)) ->
  r = r0 /\ t = t0.
Proof.
  intros Hc Ht r0 Hc0. rewrite Hc in Hc0. injection Hc0 as -> ->.
  split; [reflexivity|].
  unfold advance, try_entry in Ht. cbn [trace] in Ht.
  rewrite <- app_assoc in Ht. apply app_inv_head in Ht.
  injection Ht as ->. reflexivity.
Qed.

Lemma lookup_only_advance {A} (m : M A) s :
  lookup_only m ->
  exists t, snd (m s) = advance t s /\ forallb lookup_event t = true.
Proof.
  intros Hm. destruct (Hm s) as (t & Hh & Ht & Hf & Hd).
  exists t. split; [|exact Hf].
  destruct (snd (m s)) as [h d tr]. cbn in *. subst. reflexivity.
Qed.

(** The cascade when the exact match returns a profile: stage 1 only. *)
Lemma cascade_exact_match supabase user s0 r1 p :
  select_profile_by_email supabase (User.email user) = Fulfilled r1 ->
  data r1 = Some p ->
  profile_cascade supabase user s0 =
  (Normal (Some p),
   advance [PushStage label_stage1; Await (SelectProfileByEmail (User.email user))] s0).
Proof.
  intros H1 Hd1. unfold profile_cascade.
  rewrite (bind_normal _ _ _ _ _ (stage1_run _ _ _ _ H1)), Hd1.
  reflexivity.
Qed.

(** The cascade when the exact match finds nothing and the case-insensitive
    query returns exactly one row: stages 1 and 2 only. *)
Lemma cascade_single_match supabase user s0 r1 r2 p :
  select_profile_by_email supabase (User.email user) = Fulfilled r1 ->
  data r1 = None ->
  select_profiles_ilike_email supabase (User.email user) = Fulfilled r2 ->
  single_match (data r2) = Some p ->
  profile_cascade supabase user s0 =
  (Normal (Some p),
   advance [PushStage label_stage1; Await (SelectProfileByEmail (User.email user));
            PushStage label_stage2; Await (SelectProfilesILikeEmail (User.email user))] s0).
Proof.
  intros H1 Hd1 H2 Hd2. unfold profile_cascade.
  rewrite (bind_normal _ _ _ _ _ (stage1_run _ _ _ _ H1)), Hd1.
  rewrite (bind_normal _ _ _ _ _ (stage2_run _ _ _ _ H2)), Hd2.
  unfold bind. cbn [stage3 stage4 ret]. now rewrite advance_advance.
Qed.

(** Stage 3 awaits the RPC whatever its outcome. *)
Lemma stage3_awaits_rpc supabase user s :
  exists r,
    stage3 supabase user None s =
    (r, advance [PushStage label_stage3;
                 Await (RpcGetAuthUserByEmail (Js.encodeURIComponent (User.email user)))] s).
Proof.
  unfold stage3. rewrite (bind_normal _ _ _ _ _ (push_run _ _)). cbn zeta.
  destruct (rpc_get_auth_user_by_email supabase (Js.encodeURIComponent (User.email user)))
    as [r3|reason] eqn:H3.
  - rewrite (bind_normal _ _ _ _ _ (await_fulfilled _ _ _ _ eq_refl)).
    unfold ret. rewrite advance_advance. eauto.
  - rewrite (bind_abrupt _ _ _ _ _ (await_rejected _ _ _ _ eq_refl)).
    rewrite advance_advance. eauto.
Qed.

(** The cascade when neither the exact nor the case-insensitive match is
    accepted: the RPC is the third query. *)
Lemma cascade_falls_to_rpc supabase user s0 r1 r2 :
  select_profile_by_email supabase (User.email user) = Fulfilled r1 ->
  data r1 = None ->
  select_profiles_ilike_email supabase (User.email user) = Fulfilled r2 ->
  single_match (data r2) = None ->
  exists r t,
    profile_cascade supabase user s0 =
    (r, advance ([PushStage label_stage1; Await (SelectProfileByEmail (User.email user));
                  PushStage label_stage2; Await (SelectProfilesILikeEmail (User.email user));
                  PushStage label_stage3;
                  Await (RpcGetAuthUserByEmail (Js.encodeURIComponent (User.email user)))]
                 ++ t) s0).
Proof.
  intros H1 Hd1 H2 Hd2. unfold profile_cascade.
  rewrite (bind_normal _ _ _ _ _ (stage1_run _ _ _ _ H1)), Hd1.
  rewrite (bind_normal _ _ _ _ _ (stage2_run _ _ _ _ H2)), Hd2.
  rewrite advance_advance.
  match goal with |- context [advance ?t0 s0] => set (s2 := advance t0 s0) end.
  destruct (stage3_awaits_rpc supabase user s2) as (r3 & H3).
  destruct r3 as [p3|reason].
  - rewrite (bind_normal _ _ _ _ _ H3).
    destruct (lookup_only_advance (stage4 supabase user p3)
                (advance [PushStage label_stage3;
                          Await (RpcGetAuthUserByEmail
                                   (Js.encodeURIComponent (User.email user)))] s2)
                (lookup_only_stage4 _ _ _)) as (t4 & Hs4 & _).
    destruct (stage4 supabase user p3 _) as [r4 s4]. cbn [snd] in Hs4. subst s4.
    exists r4, t4. unfold s2. now rewrite !advance_advance.
  - rewrite (bind_abrupt _ _ _ _ _ H3).
    exists (Abrupt reason), []. unfold s2. now rewrite !advance_advance, app_nil_r.
Qed.

(** The three lookup stages and the cascade read only the [data] of the
    lookup responses. *)
Lemma cascade_ignores_lookup_errors supabase user s :
  profile_cascade (drop_lookup_errors supabase) user s = profile_cascade supabase user s.
Proof.
  assert (E1 : forall s, stage1 (drop_lookup_errors supabase) user s = stage1 supabase user s).
  { intros s0. unfold stage1, bind, await. cbn [drop_lookup_errors select_profile_by_email push].
    destruct (select_profile_by_email supabase (User.email user)); reflexivity. }
  assert (E2 : forall p s, stage2 (drop_lookup_errors supabase) user p s
                           = stage2 supabase user p s).
  { intros [p|] s0; [reflexivity|].
    unfold stage2, bind, await.
    cbn [drop_lookup_errors select_profiles_ilike_email push].
    destruct (select_profiles_ilike_email supabase (User.email user)); reflexivity. }
  assert (E3 : forall p s, stage3 (drop_lookup_errors supabase) user p s
                           = stage3 supabase user p s).
  { intros [p|] s0; [reflexivity|].
    unfold stage3, bind, await.
    cbn [drop_lookup_errors rpc_get_auth_user_by_email push].
    destruct (rpc_get_auth_user_by_email supabase _); reflexivity. }
  unfold profile_cascade, bind. rewrite E1.
  destruct (stage1 supabase user s) as [[p1|e1] s1]; [|reflexivity].
  rewrite E2. destruct (stage2 supabase user p1 s1) as [[p2|e2] s2]; [|reflexivity].
  rewrite E3. destruct (stage3 supabase user p2 s2) as [[p3|e3] s3]; reflexivity.
Qed.

(** Replacing rows that [single_match] refuses by an empty answer leaves
    the cascade as it is. *)
Lemma cascade_ignores_refused_rows supabase user s r2 :
  select_profiles_ilike_email supabase (User.email user) = Fulfilled r2 ->
  single_match (data r2) = None ->
  profile_cascade (with_ilike_answer (found []) supabase) user s =
  profile_cascade supabase user s.
Proof.
  intros H2 Hd2. unfold profile_cascade, bind.
  change (stage1 (with_ilike_answer (found []) supabase) user s)
    with (stage1 supabase user s).
  destruct (stage1 supabase user s) as [[p1|e1] s1]; [|reflexivity].
  assert (E2 : stage2 (with_ilike_answer (found []) supabase) user p1 s1
               = stage2 supabase user p1 s1).
  { destruct p1 as [p|]; [reflexivity|].
    rewrite (stage2_run supabase user r2 s1 H2), Hd2.
    now rewrite (stage2_run (with_ilike_answer (found []) supabase) user
                   (mkResponse (Some []) None) s1 eq_refl). }
  rewrite E2. reflexivity.
Qed.

(** The tier a resolution sets once its cascade has completed and the
    subscription response carries no error. *)
Lemma completed_cascade_sets_tier supabase user s p s1 resp :
  profile_cascade supabase user (try_entry s) = (Normal p, s1) ->
  select_latest_subscription supabase (User.id user) = Fulfilled resp ->
  error resp = None ->
  Hook.tier (useSubscriptionTier supabase (Some user) s) = activeTier (data resp).
Proof.
  intros Hc Hsel Herr. unfold useSubscriptionTier.
  rewrite resolution_shape, Hc, Hsel, Herr. reflexivity.
Qed.

(* ================================================================== *)
(** ** Short-circuit of the cascade *)

(** C3 (amended). When the exact, case-sensitive match returns a profile,
    the cascade stops there: the only label pushed and published is the
    stage-1 label, the only queries awaited are the exact match and then the
    subscription query (stages 2, 3 and 4 do not run); when that query is
    answered without error the tier is computed by line 119 from the first
    row of the response, that is, on a backend answering from its table,
    the [tier] field of a newest row of the identity when that field is
    non-empty, and "free" when the field is empty or the identity has no
    row. *)
Theorem exact_match_short_circuits supabase user s r1 p :
  select_profile_by_email supabase (User.email user) = Fulfilled r1 ->
  data r1 = Some p ->
  pushed (actions supabase (Some user) s) = [label_stage1] /\
  DiagnosticData.profileLookupStages
    (Hook.diagnostics (useSubscriptionTier supabase (Some user) s)) = [label_stage1] /\
  queries (actions supabase (Some user) s) =
    [SelectProfileByEmail (User.email user); SelectLatestSubscription (User.id user)] /\
  (forall resp,
     select_latest_subscription supabase (User.id user) = Fulfilled resp ->
     error resp = None ->
     Hook.tier (useSubscriptionTier supabase (Some user) s) = activeTier (data resp)) /\
  (forall table,
     answers_from_table supabase table ->
     ((forall r, In r table -> Subscription.login_id r <> User.id user) /\
      Hook.tier (useSubscriptionTier supabase (Some user) s) = "free")
     \/
     (exists r,
        newest_row table (User.id user) r /\
        Hook.tier (useSubscriptionTier supabase (Some user) s) =
          (if Js.truthy (Subscription.tier r) then Subscription.tier r else "free"))).
Proof.
  intros H1 Hd1.
  pose proof (cascade_exact_match supabase user (try_entry s) r1 p H1 Hd1) as Hexact.
  destruct (resolution_anatomy supabase user s)
    as (t & s1 & r & Hc & Ht & Hf & ending & Hact & Hpe & Hqe & Hde & Hst).
  destruct (cascade_events_known _ _ _ _ _ _ _ Hc Ht _ Hexact) as [-> ->].
  assert (Htier : forall resp,
             select_latest_subscription supabase (User.id user) = Fulfilled resp ->
             error resp = None ->
             Hook.tier (useSubscriptionTier supabase (Some user) s) = activeTier (data resp)).
  { intros resp Hsel Herr. exact (completed_cascade_sets_tier _ _ _ _ _ _ Hc Hsel Herr). }
  repeat split.
  - rewrite Hact. cbn [pushed app]. rewrite Hpe. reflexivity.
  - rewrite Hst. reflexivity.
  - rewrite Hact. cbn [queries app]. rewrite Hqe. reflexivity.
  - exact Htier.
  - intros table Hans. rewrite (Htier _ (Hans (User.id user)) eq_refl).
    cbn [data]. fold (tier_of_table table (User.id user)).
    destruct (tier_of_table_spec (User.id user) table) as [[Hfree Hnone]|(r & Hr & Hv)].
    + left. auto.
    + right. exists r. auto.
Qed.

Lemma exact_match_short_circuits_witness :
  pushed (actions (known_profile_client sample_table) (Some alice) mounted) = [label_stage1] /\
  queries (actions (known_profile_client sample_table) (Some alice) mounted) =
    [SelectProfileByEmail "Alice+x@Example.io"; SelectLatestSubscription "u-1"] /\
  Hook.tier (useSubscriptionTier (known_profile_client sample_table) (Some alice) mounted)
    = "pro".
Proof.
  destruct (exact_match_short_circuits (known_profile_client sample_table) alice mounted
              (mkResponse (Some (Profile.mk "p-1")) None) (Profile.mk "p-1")
              eq_refl eq_refl) as (Hp & _ & Hq & Ht & _).
  split; [exact Hp | split; [exact Hq|]].
  exact (Ht (mkResponse (Some [TierRow.mk "pro"]) None) eq_refl eq_refl).
Defined.

(** C3, as stated, fails: the exact match returns a profile, the only
    row of [alice] in [blank_tier_table] has the empty string as its tier,
    and the tier ends up "free", not the field of that newest row. *)
Lemma exact_match_takes_tier_of_newest_row_fails : ~ exact_match_takes_tier_of_newest_row.
Proof.
  intros H.
  specialize (H (known_profile_client blank_tier_table) alice mounted
                (mkResponse (Some (Profile.mk "p-1")) None) (Profile.mk "p-1")
                blank_tier_table blank_tier_row eq_refl eq_refl).
  assert (Hneq : "free" <> "") by discriminate.
  apply Hneq. apply H.
  - intros uid. reflexivity.
  - repeat split.
    + simpl. auto.
    + intros r' [<-|[<-|[]]]; simpl; intros Hu; [discriminate|].
      unfold blank_tier_row. simpl. lia.
Qed.

(** C4. When the exact match finds no profile and the case-insensitive
    query returns rows: with exactly one row that profile is accepted (the
    cascade stops after stage 2 and the subscription query comes next);
    with any other number of rows, in particular two or more, the rows are
    treated as no match: the RPC lookup is the next query and stage, and the
    whole resolution is the one obtained from a backend that returns no row
    and no error to the case-insensitive query, so nothing about the
    ambiguity is recorded. *)
Theorem case_insensitive_match_needs_one_row supabase user s r1 r2 rows :
  select_profile_by_email supabase (User.email user) = Fulfilled r1 ->
  data r1 = None ->
  select_profiles_ilike_email supabase (User.email user) = Fulfilled r2 ->
  data r2 = Some rows ->
  (length rows = 1 ->
   pushed (actions supabase (Some user) s) = [label_stage1; label_stage2] /\
   queries (actions supabase (Some user) s) =
     [SelectProfileByEmail (User.email user);
      SelectProfilesILikeEmail (User.email user);
      SelectLatestSubscription (User.id user)]) /\
  (length rows <> 1 ->
   (exists rest,
      queries (actions supabase (Some user) s) =
        SelectProfileByEmail (User.email user)
        :: SelectProfilesILikeEmail (User.email user)
        :: RpcGetAuthUserByEmail (Js.encodeURIComponent (User.email user))
        :: rest) /\
   (exists rest,
      pushed (actions supabase (Some user) s) =
        label_stage1 :: label_stage2 :: label_stage3 :: rest) /\
   after_effect supabase (Some user) s =
     after_effect (with_ilike_answer (found []) supabase) (Some user) s).
Proof.
  intros H1 Hd1 H2 Hd2.
  destruct (resolution_anatomy supabase user s)
    as (t & s1 & r & Hc & Ht & Hf & ending & Hact & Hpe & Hqe & Hde & Hst).
  split.
  - intros Hone.
    destruct rows as [|p [|p' rows]]; try discriminate.
    assert (Hm : single_match (data r2) = Some p) by (rewrite Hd2; reflexivity).
    pose proof (cascade_single_match supabase user (try_entry s) r1 r2 p H1 Hd1 H2 Hm) as Hk.
    destruct (cascade_events_known _ _ _ _ _ _ _ Hc Ht _ Hk) as [-> ->].
    split.
    + rewrite Hact. cbn [pushed app]. rewrite Hpe. reflexivity.
    + rewrite Hact. cbn [queries app]. rewrite Hqe. reflexivity.
  - intros Hmany.
    assert (Hm : single_match (data r2) = None).
    { rewrite Hd2. unfold single_match.
      destruct (Nat.eqb_spec (length rows) 1); [contradiction|reflexivity]. }
    destruct (cascade_falls_to_rpc supabase user (try_entry s) r1 r2 H1 Hd1 H2 Hm)
      as (r' & t' & Hk).
    destruct (cascade_events_known _ _ _ _ _ _ _ Hc Ht _ Hk) as [-> ->].
    repeat split.
    + eexists. rewrite Hact. cbn [queries app]. reflexivity.
    + eexists. rewrite Hact. cbn [pushed app]. reflexivity.
    + rewrite !resolution_shape.
      rewrite (cascade_ignores_refused_rows supabase user (try_entry s) r2 H2 Hm).
      reflexivity.
Qed.

Lemma case_insensitive_match_needs_one_row_witness :
  exists rest,
    queries (actions broken_subscriptions_client (Some alice) mounted) =
      SelectProfileByEmail "Alice+x@Example.io"
      :: SelectProfilesILikeEmail "Alice+x@Example.io"
      :: RpcGetAuthUserByEmail "Alice%2Bx%40Example.io"
      :: rest.
Proof.
  destruct (case_insensitive_match_needs_one_row broken_subscriptions_client alice mounted
              (mkResponse None None)
              (mkResponse (Some [Profile.mk "p-1"; Profile.mk "p-2"]) None)
              [Profile.mk "p-1"; Profile.mk "p-2"]
              eq_refl eq_refl eq_refl eq_refl) as [_ Hmany].
  destruct Hmany as ((rest & Hq) & _ & _); [discriminate|].
  exists rest. exact Hq.
Defined.

(* ================================================================== *)
(** ** Lookup errors *)

(** Stage 4 when the insert succeeds. *)
Lemma stage4_success supabase user r4 s :
  insert_profile supabase (User.email user) (User.id user) = Fulfilled r4 ->
  error r4 = None ->
  stage4 supabase user None s =
  (Normal (data r4),
   advance [PushStage label_stage4; Await (InsertProfile (User.email user) (User.id user));
            PushStage label_created] s).
Proof.
  intros H4 He. unfold stage4.
  rewrite (bind_normal _ _ _ _ _ (push_run _ _)). unfold try_catch.
  rewrite (bind_normal _ _ _ _ _ (await_fulfilled _ _ _ _ H4)), He.
  rewrite (bind_normal _ _ _ _ _ (push_run _ _)).
  unfold ret. now rewrite !advance_advance.
Qed.

(** C10. The lookup stages read only the [data] of their responses: the
    machine left by a resolution is the one left against the backend whose
    exact-match, case-insensitive and RPC responses have their [error]
    erased.  In particular, when all three lookup queries fail (no data, an
    error each) the resolver falls through stage by stage to the insert, and
    if the insert and the subscription query then succeed the published
    diagnostics record no error at all. *)
Theorem lookup_errors_are_discarded supabase user s :
  after_effect supabase (Some user) s =
  after_effect (drop_lookup_errors supabase) (Some user) s /\
  (forall e1 e2 e3 r4 resp,
     select_profile_by_email supabase (User.email user) = failed e1 ->
     select_profiles_ilike_email supabase (User.email user) = failed e2 ->
     rpc_get_auth_user_by_email supabase (Js.encodeURIComponent (User.email user)) = failed e3 ->
     insert_profile supabase (User.email user) (User.id user) = Fulfilled r4 ->
     error r4 = None ->
     select_latest_subscription supabase (User.id user) = Fulfilled resp ->
     error resp = None ->
     queries (actions supabase (Some user) s) =
       queries (events_until_insert user) ++ [SelectLatestSubscription (User.id user)] /\
     Hook.diagnostics (useSubscriptionTier supabase (Some user) s) =
       DiagnosticData.mk
         [label_stage1; label_stage2; label_stage3; label_stage4; label_created]
         (Some (activeTier (data resp))) None None).
Proof.
  split.
  - rewrite !resolution_shape, cascade_ignores_lookup_errors. reflexivity.
  - intros e1 e2 e3 r4 resp H1 H2 H3 H4 He4 Hsel Herr.
    assert (Hk : profile_cascade supabase user (try_entry s) =
                 (Normal (data r4),
                  advance (events_until_insert user ++ [PushStage label_created])
                    (try_entry s))).
    { unfold profile_cascade.
      rewrite (bind_normal _ _ _ _ _ (stage1_run _ _ _ _ H1)). cbn [data].
      rewrite (bind_normal _ _ _ _ _ (stage2_run _ _ _ _ H2)). cbn [data single_match].
      rewrite (bind_normal _ _ _ _ _ (stage3_run _ _ _ _ H3)). cbn [data profile_of_rpc].
      rewrite (stage4_success _ _ _ _ H4 He4), !advance_advance. reflexivity. }
    destruct (resolution_anatomy supabase user s)
      as (t & s1 & r & Hc & Ht & Hf & ending & Hact & Hpe & Hqe & Hde & Hst).
    destruct (cascade_events_known _ _ _ _ _ _ _ Hc Ht _ Hk) as [-> ->].
    split.
    + rewrite Hact. cbn [queries]. rewrite queries_app, Hqe, queries_app.
      cbn [queries]. now rewrite app_nil_r.
    + unfold useSubscriptionTier. rewrite resolution_shape, Hk, Hsel, Herr. reflexivity.
Qed.

Lemma lookup_errors_are_discarded_witness :
  after_effect failing_lookups_client (Some alice) mounted =
  after_effect (drop_lookup_errors failing_lookups_client) (Some alice) mounted /\
  Hook.diagnostics (useSubscriptionTier failing_lookups_client (Some alice) mounted) =
    DiagnosticData.mk
      [label_stage1; label_stage2; label_stage3; label_stage4; label_created]
      (Some "pro") None None.
Proof.
  destruct (lookup_errors_are_discarded failing_lookups_client alice mounted) as [Hsame Hfall].
  split; [exact Hsame|].
  destruct (Hfall rls_denied rls_denied rls_denied
              (mkResponse (Some (Profile.mk "p-9")) None)
              (mkResponse (Some [TierRow.mk "pro"]) None)
              eq_refl eq_refl eq_refl eq_refl eq_refl eq_refl eq_refl) as [_ Hd].
  exact Hd.
Defined.

(* ================================================================== *)
(** ** The absent identity *)

(** C5 (amended). When the observed identity is absent the effect awaits
    no query and its only action is [setLoading(false)]: loading becomes
    false while the tier and the diagnostics keep the values they held, so
    the result of an earlier resolution stays in place; on a freshly mounted
    hook the tier is therefore "free". *)
Theorem absent_identity_keeps_state supabase s :
  actions supabase None s = [SetLoading false] /\
  queries (actions supabase None s) = [] /\
  Hook.loading (useSubscriptionTier supabase None s) = false /\
  Hook.tier (useSubscriptionTier supabase None s) = Hook.tier (hook s) /\
  Hook.diagnostics (useSubscriptionTier supabase None s) = Hook.diagnostics (hook s) /\
  Hook.tier (useSubscriptionTier supabase None mounted) = "free".
Proof.
  assert (Hact : actions supabase None s = [SetLoading false]).
  { apply actions_of_trace. reflexivity. }
  rewrite Hact. repeat split.
Qed.

(** C5, as stated, fails: after a resolution that set the tier to "pro",
    a run of the effect without identity leaves the tier at "pro". *)
Lemma absent_identity_means_free_fails : ~ absent_identity_means_free.
Proof.
  intros H.
  specialize (H [(known_profile_client sample_table, Some alice)]
                (known_profile_client sample_table)).
  vm_compute in H. discriminate.
Qed.

(* ================================================================== *)
(** ** The tier cell over the life of the hook *)

(** Line 119 yields "free" or the [tier] of the first row received. *)
Lemma activeTier_cases (subscriptionData : option (list TierRow.t)) :
  activeTier subscriptionData = "free" \/
  first_tier subscriptionData = Some (activeTier subscriptionData).
Proof. unfold activeTier. apply or_else_cases. Qed.

(** What one run of the effect passes to [setTier], and the tier cell it
    leaves. *)
Lemma effect_tier_cases supabase user s :
  (tiers_set (actions supabase user s) = [] /\
   Hook.tier (hook (after_effect supabase user s)) = Hook.tier (hook s))
  \/
  (exists u resp,
     user = Some u /\
     select_latest_subscription supabase (User.id u) = Fulfilled resp /\
     error resp = None /\
     tiers_set (actions supabase user s) = [activeTier (data resp)] /\
     Hook.tier (hook (after_effect supabase user s)) = activeTier (data resp)).
Proof.
  destruct user as [user|].
  - resolution_cases supabase user s t s1 r Hc Htier Ht Hf Hd Hshape.
    pose proof (lookup_events_set_no_tier _ Hf) as Hnone.
    destruct r as [p|thrown];
      [destruct (select_latest_subscription supabase (User.id user)) as [resp|reason] eqn:Hsel;
       [destruct (error resp) as [e|] eqn:Herr|]|].
    + left. split; [|rewrite Hshape; exact Htier].
      rewrite (actions_resolution _ _ _ _ _ _ Ht
                 (eq_trans (f_equal trace Hshape) (trace_refused user e s1))).
      cbn [tiers_set]. rewrite tiers_set_app, Hnone. reflexivity.
    + right. exists user, resp. repeat split; auto.
      * rewrite (actions_resolution _ _ _ _ _ _ Ht
                   (eq_trans (f_equal trace Hshape) (trace_resolved user _ s1))).
        cbn [tiers_set]. rewrite tiers_set_app, Hnone. reflexivity.
      * rewrite Hshape. reflexivity.
    + left. split; [|rewrite Hshape; exact Htier].
      rewrite (actions_resolution _ _ _ _ _ _ Ht
                 (eq_trans (f_equal trace Hshape) (trace_rejected user reason s1))).
      cbn [tiers_set]. rewrite tiers_set_app, Hnone. reflexivity.
    + left. split; [|rewrite Hshape; exact Htier].
      rewrite (actions_resolution _ _ _ _ _ _ Ht
                 (eq_trans (f_equal trace Hshape) (trace_caught thrown s1))).
      cbn [tiers_set]. rewrite tiers_set_app, Hnone. reflexivity.
  - left. split; [|reflexivity].
    assert (Hact : actions supabase None s = [SetLoading false])
      by (apply actions_of_trace; reflexivity).
    rewrite Hact. reflexivity.
Qed.

Lemma tier_from_backend_app pre post v :
  tier_from_backend pre v -> tier_from_backend (pre ++ post) v.
Proof.
  intros [Hfree|(supabase & user & r & Hin & Hrest)]; [now left|].
  right. exists supabase, user, r. split; [apply in_or_app; now left|exact Hrest].
Qed.

Lemma tier_from_backend_effect pre supabase user s :
  tier_from_backend pre (Hook.tier (hook s)) ->
  tier_from_backend (pre ++ [(supabase, user)])
    (Hook.tier (hook (after_effect supabase user s))).
Proof.
  intros Hinv.
  destruct (effect_tier_cases supabase user s)
    as [[_ Hsame]|(u & resp & -> & Hsel & Herr & _ & Hnew)].
  - rewrite Hsame. now apply tier_from_backend_app.
  - rewrite Hnew. destruct (activeTier_cases (data resp)) as [Hfree|Hrow].
    + left. exact Hfree.
    + right. exists supabase, u, resp.
      split; [apply in_or_app; right; now left|auto].
Qed.

Lemma run_effects_tier_from_backend renders pre s :
  tier_from_backend pre (Hook.tier (hook s)) ->
  tier_from_backend (pre ++ renders) (Hook.tier (hook (run_effects renders s))).
Proof.
  revert pre s. induction renders as [|[supabase user] rest IH]; intros pre s Hinv.
  - rewrite app_nil_r. exact Hinv.
  - cbn [run_effects].
    replace (pre ++ (supabase, user) :: rest) with ((pre ++ [(supabase, user)]) ++ rest)
      by (now rewrite <- app_assoc).
    apply IH. now apply tier_from_backend_effect.
Qed.

(** C7. Over any life of the hook, starting from the mounted state, the
    tier cell holds "free" or a tier value that a subscription query of one
    of the runs returned as its first row; and every value a run of the
    effect passes to [setTier] is of that kind. *)
Theorem tier_is_backend_tier_or_free renders :
  tier_from_backend renders (Hook.tier (hook (run_effects renders mounted))) /\
  forall supabase user s v,
    In v (tiers_set (actions supabase user s)) ->
    tier_from_backend [(supabase, user)] v.
Proof.
  split.
  - apply (run_effects_tier_from_backend renders [] mounted). now left.
  - intros supabase user s v Hin.
    destruct (effect_tier_cases supabase user s)
      as [[Hnone _]|(u & resp & -> & Hsel & Herr & Hset & _)].
    + rewrite Hnone in Hin. contradiction.
    + rewrite Hset in Hin. destruct Hin as [<-|[]].
      destruct (activeTier_cases (data resp)) as [Hfree|Hrow].
      * left. exact Hfree.
      * right. exists supabase, u, resp. split; [now left|auto].
Qed.

Lemma tier_is_backend_tier_or_free_witness :
  tier_from_backend [(known_profile_client sample_table, Some alice)] "pro".
Proof.
  destruct (tier_is_backend_tier_or_free [(known_profile_client sample_table, Some alice)])
    as [_ Hset].
  apply (Hset (known_profile_client sample_table) (Some alice) mounted "pro").
  vm_compute. auto.
Defined.

(* ================================================================== *)
(** ** The diagnostic trace *)

Lemma lookup_only_appends {A} (m : M A) : lookup_only m -> appends_only m.
Proof.
  intros Hm s. destruct (Hm s) as (t & _ & Ht & _ & Hd).
  exists t. split; [exact Ht|]. rewrite Hd. apply push_all_stages.
Qed.

Lemma subscription_lookup_appends supabase user :
  appends_only (subscription_lookup supabase user).
Proof.
  intros s. unfold subscription_lookup, bind, await.
  destruct (select_latest_subscription supabase (User.id user)) as [resp|reason].
  - cbn [console_log]. destruct (error resp) as [e|].
    + exists [Await (SelectLatestSubscription (User.id user)); ConsoleLog].
      cbn. unfold log. cbn. rewrite <- app_assoc, app_nil_r. auto.
    + exists [Await (SelectLatestSubscription (User.id user)); ConsoleLog;
              SetTier (activeTier (data resp));
              SetDiagnostics
                (DiagnosticData.with_finalTier (activeTier (data resp)) (diagnosticData s))].
      cbn. unfold log. cbn. rewrite <- !app_assoc, app_nil_r. auto.
  - exists [Await (SelectLatestSubscription (User.id user))].
    cbn. rewrite app_nil_r. auto.
Qed.

Lemma resolve_catch_appends thrown : appends_only (resolve_catch thrown).
Proof.
  intros s.
  exists [ConsoleError;
          SetDiagnostics
            (DiagnosticData.with_profileError (error_text thrown) (diagnosticData s))].
  cbn. unfold log. cbn. rewrite <- app_assoc, app_nil_r. auto.
Qed.

(** C9. Within a resolution the stage list only grows: each step of the
    routine (the four lookup stages, the subscription step, the outer
    [catch]) leaves a stage list that is the one it found followed by the
    labels it pushed; the outer [catch] publishes exactly the stage list it
    finds; and on every path the resolution publishes diagnostics once, with
    a stage list made of all the labels pushed during the resolution, in
    order. *)
Theorem stage_list_only_grows supabase user s :
  appends_only (stage1 supabase user) /\
  (forall p, appends_only (stage2 supabase user p)) /\
  (forall p, appends_only (stage3 supabase user p)) /\
  (forall p, appends_only (stage4 supabase user p)) /\
  appends_only (subscription_lookup supabase user) /\
  (forall thrown, appends_only (resolve_catch thrown)) /\
  (forall thrown s1,
     DiagnosticData.profileLookupStages
       (Hook.diagnostics (hook (snd (resolve_catch thrown s1)))) =
     DiagnosticData.profileLookupStages (diagnosticData s1)) /\
  diagnostics_set (actions supabase (Some user) s) =
    [Hook.diagnostics (useSubscriptionTier supabase (Some user) s)] /\
  DiagnosticData.profileLookupStages
    (Hook.diagnostics (useSubscriptionTier supabase (Some user) s)) =
    pushed (actions supabase (Some user) s).
Proof.
  destruct (resolution_anatomy supabase user s)
    as (t & s1 & r & Hc & Ht & Hf & ending & Hact & Hpe & Hqe & Hde & Hst).
  repeat match goal with |- _ /\ _ => split end.
  - apply lookup_only_appends, lookup_only_stage1.
  - intros p. apply lookup_only_appends, lookup_only_stage2.
  - intros p. apply lookup_only_appends, lookup_only_stage3.
  - intros p. apply lookup_only_appends, lookup_only_stage4.
  - apply subscription_lookup_appends.
  - apply resolve_catch_appends.
  - reflexivity.
  - rewrite Hact. cbn [diagnostics_set].
    rewrite diagnostics_set_app, (lookup_events_set_no_diagnostics _ Hf), Hde. reflexivity.
  - rewrite Hact, Hst. cbn [pushed]. rewrite pushed_app, Hpe, app_nil_r. reflexivity.
Qed.

(* ================================================================== *)
(** ** The cascade, whatever the backend answers *)

(** Each stage that runs performs the same events whatever state it
    starts from, and whatever the outcome of its query. *)
Lemma stage1_shape supabase user :
  exists r, forall s,
    stage1 supabase user s =
    (r, advance [PushStage label_stage1; Await (SelectProfileByEmail (User.email user))] s).
Proof.
  destruct (select_profile_by_email supabase (User.email user)) as [r1|reason] eqn:H1.
  - exists (Normal (data r1)). intros s. now apply stage1_run.
  - exists (Abrupt reason). intros s. unfold stage1.
    rewrite (bind_normal _ _ _ _ _ (push_run _ _)).
    rewrite (bind_abrupt _ _ _ _ _ (await_rejected _ _ _ _ H1)).
    now rewrite advance_advance.
Qed.

Lemma stage2_shape supabase user :
  exists r, forall s,
    stage2 supabase user None s =
    (r, advance [PushStage label_stage2;
                 Await (SelectProfilesILikeEmail (User.email user))] s).
Proof.
  destruct (select_profiles_ilike_email supabase (User.email user)) as [r2|reason] eqn:H2.
  - exists (Normal (single_match (data r2))). intros s. now apply stage2_run.
  - exists (Abrupt reason). intros s. unfold stage2.
    rewrite (bind_normal _ _ _ _ _ (push_run _ _)).
    rewrite (bind_abrupt _ _ _ _ _ (await_rejected _ _ _ _ H2)).
    now rewrite advance_advance.
Qed.

Lemma stage3_shape supabase user :
  exists r, forall s,
    stage3 supabase user None s =
    (r, advance [PushStage label_stage3;
                 Await (RpcGetAuthUserByEmail (Js.encodeURIComponent (User.email user)))] s).
Proof.
  destruct (rpc_get_auth_user_by_email supabase (Js.encodeURIComponent (User.email user)))
    as [r3|reason] eqn:H3.
  - exists (Normal (profile_of_rpc (data r3))). intros s. now apply stage3_run.
  - exists (Abrupt reason). intros s. unfold stage3.
    rewrite (bind_normal _ _ _ _ _ (push_run _ _)). cbn zeta.
    rewrite (bind_abrupt _ _ _ _ _ (await_rejected _ _ _ _ H3)).
    now rewrite advance_advance.
Qed.

Lemma stage4_shape supabase user :
  exists r t,
    (forall s, stage4 supabase user None s = (r, advance t s)) /\
    queries t = [InsertProfile (User.email user) (User.id user)] /\
    forallb lookup_event t = true /\
    pushed t = label_stage4 :: match r with
                               | Normal _ => [label_created]
                               | Abrupt _ => [label_fatal]
                               end.
Proof.
  destruct (insert_failure (insert_profile supabase (User.email user) (User.id user)))
    as [thrown|] eqn:Hins.
  - exists (Abrupt thrown).
    unfold insert_failure in Hins.
    destruct (insert_profile supabase (User.email user) (User.id user)) as [r4|reason] eqn:H4.
    + destruct (error r4) as [e|] eqn:He; [|discriminate]. injection Hins as <-.
      exists [PushStage label_stage4; Await (InsertProfile (User.email user) (User.id user));
              ConsoleError; PushStage label_fatal].
      split; [|auto]. intros s. unfold stage4.
      rewrite (bind_normal _ _ _ _ _ (push_run _ _)). unfold try_catch.
      rewrite (bind_normal _ _ _ _ _ (await_fulfilled _ _ _ _ H4)), He.
      unfold bind, console_error, throw, push, log, advance. cbn.
      rewrite <- !app_assoc. reflexivity.
    + injection Hins as <-.
      exists [PushStage label_stage4; Await (InsertProfile (User.email user) (User.id user));
              PushStage label_fatal].
      split; [|auto]. intros s. unfold stage4.
      rewrite (bind_normal _ _ _ _ _ (push_run _ _)). unfold try_catch.
      rewrite (bind_abrupt _ _ _ _ _ (await_rejected _ _ _ _ H4)).
      unfold bind, throw, push, log, advance. cbn.
      rewrite <- !app_assoc. reflexivity.
  - unfold insert_failure in Hins.
    destruct (insert_profile supabase (User.email user) (User.id user)) as [r4|reason] eqn:H4;
      [|discriminate].
    destruct (error r4) as [e|] eqn:He; [discriminate|].
    exists (Normal (data r4)).
    exists [PushStage label_stage4; Await (InsertProfile (User.email user) (User.id user));
            PushStage label_created].
    split; [|auto]. intros s. now apply stage4_success.
Qed.

(** The cascade runs the stages in order and stops at the first one that
    yields a profile or throws: it awaits the first [k] lookup queries and
    pushes the matching labels, for some [k] between 1 and 4, whatever the
    state it starts from. *)
Lemma cascade_shape supabase user :
  exists r t k,
    (forall s, profile_cascade supabase user s = (r, advance t s)) /\
    1 <= k <= 4 /\
    queries t = firstn k (lookup_queries user) /\
    pushed t = stage_list_of k r /\
    forallb lookup_event t = true.
Proof.
  destruct (stage1_shape supabase user) as (r1 & H1).
  destruct r1 as [[p1|]|e1].
  { exists (Normal (Some p1)), [PushStage label_stage1;
                                 Await (SelectProfileByEmail (User.email user))], 1.
    split; [|repeat split; auto].
    intros s. unfold profile_cascade. rewrite (bind_normal _ _ _ _ _ (H1 s)). reflexivity. }
  2: { exists (Abrupt e1), [PushStage label_stage1;
                            Await (SelectProfileByEmail (User.email user))], 1.
       split; [|repeat split; auto].
       intros s. unfold profile_cascade. now rewrite (bind_abrupt _ _ _ _ _ (H1 s)). }
  destruct (stage2_shape supabase user) as (r2 & H2).
  destruct r2 as [[p2|]|e2].
  { exists (Normal (Some p2)),
      ([PushStage label_stage1; Await (SelectProfileByEmail (User.email user))] ++
       [PushStage label_stage2; Await (SelectProfilesILikeEmail (User.email user))]), 2.
    split; [|repeat split; auto].
    intros s. unfold profile_cascade.
    rewrite (bind_normal _ _ _ _ _ (H1 s)), (bind_normal _ _ _ _ _ (H2 _)).
    rewrite advance_advance. reflexivity. }
  2: { exists (Abrupt e2),
         ([PushStage label_stage1; Await (SelectProfileByEmail (User.email user))] ++
          [PushStage label_stage2; Await (SelectProfilesILikeEmail (User.email user))]), 2.
       split; [|repeat split; auto].
       intros s. unfold profile_cascade.
       rewrite (bind_normal _ _ _ _ _ (H1 s)), (bind_abrupt _ _ _ _ _ (H2 _)).
       now rewrite advance_advance. }
  destruct (stage3_shape supabase user) as (r3 & H3).
  destruct r3 as [[p3|]|e3].
  { exists (Normal (Some p3)),
      (([PushStage label_stage1; Await (SelectProfileByEmail (User.email user))] ++
        [PushStage label_stage2; Await (SelectProfilesILikeEmail (User.email user))]) ++
       [PushStage label_stage3;
        Await (RpcGetAuthUserByEmail (Js.encodeURIComponent (User.email user)))]), 3.
    split; [|repeat split; auto].
    intros s. unfold profile_cascade.
    rewrite (bind_normal _ _ _ _ _ (H1 s)), (bind_normal _ _ _ _ _ (H2 _)),
      (bind_normal _ _ _ _ _ (H3 _)).
    rewrite !advance_advance. reflexivity. }
  2: { exists (Abrupt e3),
         (([PushStage label_stage1; Await (SelectProfileByEmail (User.email user))] ++
           [PushStage label_stage2; Await (SelectProfilesILikeEmail (User.email user))]) ++
          [PushStage label_stage3;
           Await (RpcGetAuthUserByEmail (Js.encodeURIComponent (User.email user)))]), 3.
       split; [|repeat split; auto].
       intros s. unfold profile_cascade.
       rewrite (bind_normal _ _ _ _ _ (H1 s)), (bind_normal _ _ _ _ _ (H2 _)),
         (bind_abrupt _ _ _ _ _ (H3 _)).
       now rewrite !advance_advance. }
  destruct (stage4_shape supabase user) as (r4 & t4 & H4 & Hq4 & Hf4 & Hp4).
  exists r4,
    ((([PushStage label_stage1; Await (SelectProfileByEmail (User.email user))] ++
       [PushStage label_stage2; Await (SelectProfilesILikeEmail (User.email user))]) ++
      [PushStage label_stage3;
       Await (RpcGetAuthUserByEmail (Js.encodeURIComponent (User.email user)))]) ++ t4), 4.
  split; [|split; [lia|split; [|split]]].
  - intros s. unfold profile_cascade.
    rewrite (bind_normal _ _ _ _ _ (H1 s)), (bind_normal _ _ _ _ _ (H2 _)),
      (bind_normal _ _ _ _ _ (H3 _)), H4.
    now rewrite !advance_advance.
  - rewrite queries_app, Hq4. reflexivity.
  - rewrite pushed_app, Hp4. unfold stage_list_of. cbn [Nat.eqb firstn stage_labels].
    destruct r4; reflexivity.
  - rewrite forallb_app, Hf4. reflexivity.
Qed.

Lemma push_all_mk labels l a b c :
  push_all labels (DiagnosticData.mk l a b c) = DiagnosticData.mk (l ++ labels) a b c.
Proof.
  revert l. induction labels as [|x labels IH]; intros l; cbn.
  - now rewrite app_nil_r.
  - unfold DiagnosticData.push_stage. cbn. fold (push_all labels).
    rewrite IH, <- app_assoc. reflexivity.
Qed.

(** The machine on which the ending of a resolution starts. *)
Lemma advance_try_entry t s :
  Hook.tier (hook (advance t (try_entry s))) = Hook.tier (hook s) /\
  diagnosticData (advance t (try_entry s)) = DiagnosticData.mk (pushed t) None None None /\
  trace (advance t (try_entry s)) = trace s ++ SetLoading true :: t.
Proof.
  unfold advance, try_entry. cbn [hook diagnosticData trace Hook.tier].
  unfold DiagnosticData.empty. rewrite push_all_mk, <- app_assoc. auto.
Qed.

(** Summary of a resolution, for a backend and an identity: the lookup
    events [t] of its cascade, the diagnostics [d] it publishes, the value
    [v] it passes to [setTier] if any, and its last actions [ending]; none
    of them depends on the state the resolution starts from. *)
Lemma resolution_summary supabase user :
  exists r t k d v ending,
    (forall s, profile_cascade supabase user s = (r, advance t s)) /\
    1 <= k <= 4 /\
    queries t = firstn k (lookup_queries user) /\
    pushed t = stage_list_of k r /\
    forallb lookup_event t = true /\
    (forall s,
       hook (after_effect supabase (Some user) s) =
         Hook.mk (tier_after v (Hook.tier (hook s))) false d /\
       actions supabase (Some user) s = SetLoading true :: t ++ ending) /\
    queries ending =
      match r with
      | Normal _ => [SelectLatestSubscription (User.id user)]
      | Abrupt _ => []
      end /\
    pushed ending = [] /\
    tiers_set ending = match v with Some x => [x] | None => [] end /\
    loadings_set ending = [false] /\
    diagnostics_set ending = [d] /\
    match v with
    | Some x =>
        exists p resp,
          r = Normal p /\
          select_latest_subscription supabase (User.id user) = Fulfilled resp /\
          error resp = None /\
          x = activeTier (data resp) /\
          d = DiagnosticData.mk (pushed t) (Some x) None None
    | None =>
        (exists thrown,
           r = Abrupt thrown /\
           d = DiagnosticData.mk (pushed t) None None (Some (error_text thrown))) \/
        (exists p reason,
           r = Normal p /\
           select_latest_subscription supabase (User.id user) = Rejected reason /\
           d = DiagnosticData.mk (pushed t) None None (Some (error_text reason))) \/
        (exists p resp e,
           r = Normal p /\
           select_latest_subscription supabase (User.id user) = Fulfilled resp /\
           error resp = Some e /\
           d = DiagnosticData.mk (pushed t) None (Some e) (Some "Unknown error"))
    end.
Proof.
  destruct (cascade_shape supabase user) as (r & t & k & Hc & Hk & Hq & Hp & Hf).
  destruct r as [p|thrown];
    [destruct (select_latest_subscription supabase (User.id user)) as [resp|reason] eqn:Hsel;
     [destruct (error resp) as [e|] eqn:Herr|]|].
  - exists (Normal p), t, k,
      (DiagnosticData.mk (pushed t) None (Some e) (Some "Unknown error")), None,
      [Await (SelectLatestSubscription (User.id user)); ConsoleLog; ConsoleError;
       SetDiagnostics (DiagnosticData.mk (pushed t) None (Some e) (Some "Unknown error"));
       SetLoading false].
    repeat (split; [assumption || reflexivity|]).
    split; [|repeat (split; [reflexivity|]); right; right; eauto 10].
    intros s. destruct (advance_try_entry t s) as (Ht & Hd & Htr).
    assert (Hshape := resolution_shape supabase user s).
    rewrite (Hc (try_entry s)), Hsel, Herr in Hshape.
    split.
    + rewrite Hshape. cbn [refused caught asked hook diagnosticData].
      rewrite Ht, Hd. reflexivity.
    + rewrite (actions_resolution _ _ _ _ _ _ Htr
                 (eq_trans (f_equal trace Hshape) (trace_refused user e _))).
      rewrite Hd. reflexivity.
  - exists (Normal p), t, k,
      (DiagnosticData.mk (pushed t) (Some (activeTier (data resp))) None None),
      (Some (activeTier (data resp))),
      [Await (SelectLatestSubscription (User.id user)); ConsoleLog;
       SetTier (activeTier (data resp));
       SetDiagnostics
         (DiagnosticData.mk (pushed t) (Some (activeTier (data resp))) None None);
       SetLoading false].
    repeat (split; [assumption || reflexivity|]).
    split; [|repeat (split; [reflexivity|]); eauto 10].
    intros s. destruct (advance_try_entry t s) as (Ht & Hd & Htr).
    assert (Hshape := resolution_shape supabase user s).
    rewrite (Hc (try_entry s)), Hsel, Herr in Hshape.
    split.
    + rewrite Hshape. cbn [resolved asked hook diagnosticData].
      rewrite Hd. reflexivity.
    + rewrite (actions_resolution _ _ _ _ _ _ Htr
                 (eq_trans (f_equal trace Hshape) (trace_resolved user _ _))).
      rewrite Hd. reflexivity.
  - exists (Normal p), t, k,
      (DiagnosticData.mk (pushed t) None None (Some (error_text reason))), None,
      [Await (SelectLatestSubscription (User.id user)); ConsoleError;
       SetDiagnostics (DiagnosticData.mk (pushed t) None None (Some (error_text reason)));
       SetLoading false].
    repeat (split; [assumption || reflexivity|]).
    split; [|repeat (split; [reflexivity|]); right; left; eauto 10].
    intros s. destruct (advance_try_entry t s) as (Ht & Hd & Htr).
    assert (Hshape := resolution_shape supabase user s).
    rewrite (Hc (try_entry s)), Hsel in Hshape.
    split.
    + rewrite Hshape. cbn [caught log hook diagnosticData].
      rewrite Ht, Hd. reflexivity.
    + rewrite (actions_resolution _ _ _ _ _ _ Htr
                 (eq_trans (f_equal trace Hshape) (trace_rejected user reason _))).
      rewrite Hd. reflexivity.
  - exists (Abrupt thrown), t, k,
      (DiagnosticData.mk (pushed t) None None (Some (error_text thrown))), None,
      [ConsoleError;
       SetDiagnostics (DiagnosticData.mk (pushed t) None None (Some (error_text thrown)));
       SetLoading false].
    repeat (split; [assumption || reflexivity|]).
    split; [|repeat (split; [reflexivity|]); left; eauto 10].
    intros s. destruct (advance_try_entry t s) as (Ht & Hd & Htr).
    assert (Hshape := resolution_shape supabase user s).
    rewrite (Hc (try_entry s)) in Hshape.
    split.
    + rewrite Hshape. cbn [caught hook diagnosticData].
      rewrite Ht, Hd. reflexivity.
    + rewrite (actions_resolution _ _ _ _ _ _ Htr
                 (eq_trans (f_equal trace Hshape) (trace_caught thrown _))).
      rewrite Hd. reflexivity.
Qed.

Lemma advance_inj t t0 s : advance t s = advance t0 s -> t = t0.
Proof.
  intros H. apply (f_equal trace) in H. unfold advance in H. cbn [trace] in H.
  now apply app_inv_head in H.
Qed.

(** A cascade computed on one state fixes the summary's cascade. *)
Lemma shape_known supabase user {r t} r0 t0 s0 :
  (forall s, profile_cascade supabase user s = (r, advance t s)) ->
  profile_cascade supabase user s0 = (r0, advance t0 s0) ->
  r = r0 /\ t = t0.
Proof.
  intros Hc H0. rewrite Hc in H0.
  split; [congruence|]. apply (advance_inj t t0 s0). congruence.
Qed.

Lemma lookup_events_set_no_loading t : forallb lookup_event t = true -> loadings_set t = [].
Proof.
  induction t as [|e t IH]; simpl; [reflexivity|].
  intros H. apply andb_true_iff in H. destruct H as [He Ht].
  destruct e; simpl in *; try discriminate; auto.
Qed.

Lemma loadings_set_app t1 t2 : loadings_set (t1 ++ t2) = loadings_set t1 ++ loadings_set t2.
Proof.
  induction t1 as [|e t1 IH]; simpl; [reflexivity|].
  destruct e; simpl; rewrite ?IH; reflexivity.
Qed.

Lemma queries_of_lookup_events t uid :
  forallb lookup_event t = true -> ~ In (SelectLatestSubscription uid) (queries t).
Proof.
  induction t as [|e t IH]; simpl; [tauto|].
  intros H. apply andb_true_iff in H. destruct H as [He Ht].
  destruct e as [q| | | | | |]; simpl in *; auto.
  destruct q; simpl in *; try discriminate; intros [Hq|Hq]; try discriminate; now apply IH.
Qed.

Lemma In_queries t q : In (Await q) t <-> In q (queries t).
Proof.
  induction t as [|e t IH]; simpl; [tauto|].
  destruct e; simpl; rewrite IH; intuition (try discriminate; try congruence).
Qed.

(* ================================================================== *)
(** ** Protocol of a resolution *)

(** X1. Whatever the backend answers, a resolution awaits the lookup
    queries in the fixed order exact match, case-insensitive match, RPC,
    insert, stopping after the first [k] of them (1 <= k <= 4), then
    possibly the subscription query, and nothing else: at most five queries,
    none repeated.  The published stage list is the first [k] stage labels;
    when stage 4 ran it is followed by the success label, and then the
    subscription query is awaited, or by the fatal label, and then it is
    not. *)
Theorem query_and_stage_protocol supabase user s :
  exists k,
    1 <= k <= 4 /\
    ((k < 4 /\
      DiagnosticData.profileLookupStages
        (Hook.diagnostics (useSubscriptionTier supabase (Some user) s)) =
        firstn k stage_labels /\
      (queries (actions supabase (Some user) s) = firstn k (lookup_queries user) \/
       queries (actions supabase (Some user) s) =
         firstn k (lookup_queries user) ++ [SelectLatestSubscription (User.id user)]))
     \/
     (k = 4 /\
      DiagnosticData.profileLookupStages
        (Hook.diagnostics (useSubscriptionTier supabase (Some user) s)) =
        stage_labels ++ [label_created] /\
      queries (actions supabase (Some user) s) =
        lookup_queries user ++ [SelectLatestSubscription (User.id user)])
     \/
     (k = 4 /\
      DiagnosticData.profileLookupStages
        (Hook.diagnostics (useSubscriptionTier supabase (Some user) s)) =
        stage_labels ++ [label_fatal] /\
      queries (actions supabase (Some user) s) = lookup_queries user)) /\
    length (queries (actions supabase (Some user) s)) <= 5.
Proof.
  destruct (resolution_summary supabase user)
    as (r & t & k & d & v & ending & Hc & Hk & Hq & Hp & Hf & Hrun & Hqe & Hpe & _ & _ & _ & Hout).
  destruct (Hrun s) as [Hhook Hact].
  assert (Hst : DiagnosticData.profileLookupStages
                  (Hook.diagnostics (useSubscriptionTier supabase (Some user) s)) = pushed t).
  { unfold useSubscriptionTier. rewrite Hhook. cbn [Hook.diagnostics].
    destruct v as [x|].
    - destruct Hout as (p & resp & _ & _ & _ & _ & Hd). now rewrite Hd.
    - destruct Hout
        as [(th & _ & Hd)|[(p & re & _ & _ & Hd)|(p & resp & e & _ & _ & _ & Hd)]];
        now rewrite Hd. }
  assert (Hqs : queries (actions supabase (Some user) s) =
                firstn k (lookup_queries user) ++ queries ending).
  { rewrite Hact. cbn [queries]. now rewrite queries_app, Hq. }
  exists k. split; [exact Hk|]. rewrite Hst, Hp, Hqs, Hqe.
  assert (Hcases : k = 1 \/ k = 2 \/ k = 3 \/ k = 4) by lia.
  split.
  - destruct Hcases as [-> | [-> | [-> | ->]]].
    1-3: left; split; [lia|]; split;
      [unfold stage_list_of; cbn [Nat.eqb]; now rewrite app_nil_r|];
      destruct r; [right|left; rewrite app_nil_r]; reflexivity.
    destruct r as [p|thrown].
    + right. left. repeat split.
    + right. right. repeat split.
  - destruct Hcases as [-> | [-> | [-> | ->]]]; destruct r; cbn; lia.
Qed.

(** A resolution ends with [setLoading(false)]. *)
Lemma actions_end_with_clear supabase user s :
  exists t, actions supabase (Some user) s = t ++ [SetLoading false].
Proof.
  resolution_cases supabase user s t s1 r Hc Htier Ht Hf Hd Hshape.
  destruct r as [p|thrown];
    [destruct (select_latest_subscription supabase (User.id user)) as [resp|reason];
     [destruct (error resp) as [e|]|]|].
  - exists (SetLoading true :: t ++
            [Await (SelectLatestSubscription (User.id user)); ConsoleLog; ConsoleError;
             SetDiagnostics
               (DiagnosticData.with_profileError "Unknown error"
                  (DiagnosticData.with_subscriptionError e (diagnosticData s1)))]).
    rewrite (actions_resolution _ _ _ _ _ _ Ht (eq_trans (f_equal trace Hshape)
                                                   (trace_refused user e s1))).
    cbn. now rewrite <- app_assoc.
  - exists (SetLoading true :: t ++
            [Await (SelectLatestSubscription (User.id user)); ConsoleLog;
             SetTier (activeTier (data resp));
             SetDiagnostics
               (DiagnosticData.with_finalTier (activeTier (data resp)) (diagnosticData s1))]).
    rewrite (actions_resolution _ _ _ _ _ _ Ht (eq_trans (f_equal trace Hshape)
                                                   (trace_resolved user _ s1))).
    cbn. now rewrite <- app_assoc.
  - exists (SetLoading true :: t ++
            [Await (SelectLatestSubscription (User.id user)); ConsoleError;
             SetDiagnostics
               (DiagnosticData.with_profileError (error_text reason) (diagnosticData s1))]).
    rewrite (actions_resolution _ _ _ _ _ _ Ht (eq_trans (f_equal trace Hshape)
                                                   (trace_rejected user reason s1))).
    cbn. now rewrite <- app_assoc.
  - exists (SetLoading true :: t ++
            [ConsoleError;
             SetDiagnostics
               (DiagnosticData.with_profileError (error_text thrown) (diagnosticData s1))]).
    rewrite (actions_resolution _ _ _ _ _ _ Ht (eq_trans (f_equal trace Hshape)
                                                   (trace_caught thrown s1))).
    cbn. now rewrite <- app_assoc.
Qed.

(** X2. A resolution calls [setLoading] exactly twice: [setLoading(true)]
    is its very first action, [setLoading(false)] its very last, and no
    action in between touches the flag. *)
Theorem loading_toggles_once supabase user s :
  exists middle,
    actions supabase (Some user) s = SetLoading true :: middle ++ [SetLoading false] /\
    loadings_set middle = [] /\
    loadings_set (actions supabase (Some user) s) = [true; false].
Proof.
  destruct (resolution_summary supabase user)
    as (r & t & k & d & v & ending & _ & _ & _ & _ & Hf & Hrun & _ & _ & _ & Hle & _).
  destruct (Hrun s) as [_ Hact].
  destruct (actions_end_with_clear supabase user s) as (u & Hend).
  assert (Hne : ending <> []) by (intros ->; discriminate).
  destruct (exists_last Hne) as (e' & x & ->).
  rewrite Hact in Hend.
  change (SetLoading true :: t ++ e' ++ [x]) with ((SetLoading true :: t) ++ e' ++ [x]) in Hend.
  rewrite app_assoc in Hend. apply app_inj_tail in Hend. destruct Hend as [_ ->].
  rewrite loadings_set_app in Hle. cbn [loadings_set] in Hle.
  apply (app_inv_tail [false] (loadings_set e') []) in Hle.
  exists (t ++ e'). split; [|split].
  - rewrite Hact. now rewrite <- app_assoc.
  - now rewrite loadings_set_app, (lookup_events_set_no_loading _ Hf), Hle.
  - rewrite Hact. cbn [loadings_set].
    now rewrite !loadings_set_app, (lookup_events_set_no_loading _ Hf), Hle.
Qed.

(** The queries of a resolution: the first [k] lookup queries, then
    possibly the subscription query. *)
Lemma queries_shape supabase user s :
  exists k,
    1 <= k <= 4 /\
    (queries (actions supabase (Some user) s) = firstn k (lookup_queries user) \/
     queries (actions supabase (Some user) s) =
       firstn k (lookup_queries user) ++ [SelectLatestSubscription (User.id user)]).
Proof.
  destruct (resolution_summary supabase user)
    as (r & t & k & d & v & ending & _ & Hk & Hq & _ & _ & Hrun & Hqe & _).
  destruct (Hrun s) as [_ Hact].
  exists k. split; [exact Hk|].
  rewrite Hact. cbn [queries]. rewrite queries_app, Hq, Hqe.
  destruct r; [right|left; rewrite app_nil_r]; reflexivity.
Qed.

(* ================================================================== *)
(** ** Outcome of a resolution *)

(** What a resolution that reaches the subscription query leaves in the
    tier cell and in the published [finalTier], [subscriptionError] and
    [profileError]: a function of the answer to that query and of the
    previous tier. *)
Lemma reached_outcome supabase user s :
  reaches_subscription_query (User.id user) (actions supabase (Some user) s) ->
  Hook.tier (useSubscriptionTier supabase (Some user) s) =
    match select_latest_subscription supabase (User.id user) with
    | Fulfilled resp =>
        match error resp with
        | None => activeTier (data resp)
        | Some _ => Hook.tier (hook s)
        end
    | Rejected _ => Hook.tier (hook s)
    end /\
  DiagnosticData.finalTier (Hook.diagnostics (useSubscriptionTier supabase (Some user) s)) =
    match select_latest_subscription supabase (User.id user) with
    | Fulfilled resp =>
        match error resp with
        | None => Some (activeTier (data resp))
        | Some _ => None
        end
    | Rejected _ => None
    end /\
  DiagnosticData.subscriptionError
    (Hook.diagnostics (useSubscriptionTier supabase (Some user) s)) =
    match select_latest_subscription supabase (User.id user) with
    | Fulfilled resp => error resp
    | Rejected _ => None
    end /\
  DiagnosticData.profileError
    (Hook.diagnostics (useSubscriptionTier supabase (Some user) s)) =
    match select_latest_subscription supabase (User.id user) with
    | Fulfilled resp =>
        match error resp with
        | None => None
        | Some e => Some (error_text (ErrorObject e))
        end
    | Rejected reason => Some (error_text reason)
    end /\
  tiers_set (actions supabase (Some user) s) =
    match select_latest_subscription supabase (User.id user) with
    | Fulfilled resp =>
        match error resp with
        | None => [activeTier (data resp)]
        | Some _ => []
        end
    | Rejected _ => []
    end.
Proof.
  intros Hreach.
  destruct (resolution_summary supabase user)
    as (r & t & k & d & v & ending & Hc & _ & _ & _ & Hf & Hrun & Hqe & _ & Hte & _ & _ & Hout).
  destruct (Hrun s) as [Hhook Hact].
  assert (Hts : tiers_set (actions supabase (Some user) s) = tiers_set ending).
  { rewrite Hact. cbn [tiers_set].
    now rewrite tiers_set_app, (lookup_events_set_no_tier _ Hf). }
  assert (Hnormal : exists p, r = Normal p).
  { destruct r as [p|thrown]; [eauto|]. exfalso.
    unfold reaches_subscription_query in Hreach. apply In_queries in Hreach.
    rewrite Hact in Hreach. cbn [queries] in Hreach.
    rewrite queries_app, Hqe, app_nil_r in Hreach.
    exact (queries_of_lookup_events _ _ Hf Hreach). }
  destruct Hnormal as (p & ->).
  unfold useSubscriptionTier. rewrite Hhook, Hts, Hte. cbn [Hook.tier Hook.diagnostics].
  destruct v as [x|].
  - destruct Hout as (p' & resp & _ & Hsel & Herr & -> & ->).
    rewrite Hsel, Herr. repeat split.
  - destruct Hout
      as [(th & Habs & _)|[(p' & re & _ & Hsel & Hd)|(p' & resp & e & _ & Hsel & Herr & Hd)]].
    + discriminate.
    + rewrite Hsel, Hd. repeat split.
    + rewrite Hsel, Herr, Hd. repeat split.
Qed.

(** X3. When the subscription query is reached and answered without
    error, the tier cell and the published [finalTier] both hold the value
    of line 119, [setTier] is called exactly once, and no error is
    published; with [data] null or an empty array that value is "free". *)
Theorem successful_lookup_publishes_tier supabase user s resp :
  reaches_subscription_query (User.id user) (actions supabase (Some user) s) ->
  select_latest_subscription supabase (User.id user) = Fulfilled resp ->
  error resp = None ->
  Hook.tier (useSubscriptionTier supabase (Some user) s) = activeTier (data resp) /\
  tiers_set (actions supabase (Some user) s) = [activeTier (data resp)] /\
  DiagnosticData.finalTier (Hook.diagnostics (useSubscriptionTier supabase (Some user) s))
    = Some (activeTier (data resp)) /\
  DiagnosticData.subscriptionError
    (Hook.diagnostics (useSubscriptionTier supabase (Some user) s)) = None /\
  DiagnosticData.profileError
    (Hook.diagnostics (useSubscriptionTier supabase (Some user) s)) = None /\
  (data resp = None \/ data resp = Some [] ->
   Hook.tier (useSubscriptionTier supabase (Some user) s) = "free").
Proof.
  intros Hreach Hsel Herr.
  destruct (reached_outcome supabase user s Hreach) as (Ht & Hft & Hse & Hpe & Hts).
  rewrite Hsel, Herr in *. rewrite Ht. repeat split; auto.
  intros [Hd|Hd]; rewrite Hd; reflexivity.
Qed.

Lemma successful_lookup_publishes_tier_witness :
  Hook.tier (useSubscriptionTier (creating_client blank_tier_table) (Some alice) mounted)
    = "free" /\
  tiers_set (actions (creating_client blank_tier_table) (Some alice) mounted) = ["free"].
Proof.
  destruct (successful_lookup_publishes_tier (creating_client blank_tier_table) alice mounted
              (mkResponse (Some [TierRow.mk ""]) None)) as (Ht & Hs & _).
  - vm_compute. auto 20.
  - reflexivity.
  - reflexivity.
  - split; [exact Ht | exact Hs].
Defined.

(** X4. When the promise of the subscription query rejects, the
    resolution is caught like any failure: the tier cell keeps its value,
    [setTier] is not called, the published [profileError] is the text of the
    rejection reason, and neither [finalTier] nor [subscriptionError] is
    recorded. *)
Theorem rejected_subscription_query_leaves_tier supabase user s reason :
  reaches_subscription_query (User.id user) (actions supabase (Some user) s) ->
  select_latest_subscription supabase (User.id user) = Rejected reason ->
  Hook.tier (useSubscriptionTier supabase (Some user) s) = Hook.tier (hook s) /\
  tiers_set (actions supabase (Some user) s) = [] /\
  DiagnosticData.profileError
    (Hook.diagnostics (useSubscriptionTier supabase (Some user) s))
    = Some (error_text reason) /\
  DiagnosticData.finalTier (Hook.diagnostics (useSubscriptionTier supabase (Some user) s))
    = None /\
  DiagnosticData.subscriptionError
    (Hook.diagnostics (useSubscriptionTier supabase (Some user) s)) = None.
Proof.
  intros Hreach Hsel.
  destruct (reached_outcome supabase user s Hreach) as (Ht & Hft & Hse & Hpe & Hts).
  rewrite Hsel in *. auto.
Qed.

Lemma rejected_subscription_query_leaves_tier_witness :
  Hook.tier (useSubscriptionTier flaky_subscriptions_client (Some alice) mounted) = "free" /\
  DiagnosticData.profileError
    (Hook.diagnostics (useSubscriptionTier flaky_subscriptions_client (Some alice) mounted))
    = Some "Failed to fetch".
Proof.
  destruct (rejected_subscription_query_leaves_tier flaky_subscriptions_client alice mounted
              (ErrorInstance "Failed to fetch")) as (Ht & _ & Hp & _).
  - vm_compute. auto 20.
  - reflexivity.
  - split; [exact Ht | exact Hp].
Defined.

(** X5. The tier never depends on which profile the cascade found: two
    backends that give the same answer to the subscription query of the
    identity leave the same tier, [finalTier], [subscriptionError] and
    [profileError] whenever both resolutions reach that query; and a
    subscription query is only ever keyed by the identity's own id. *)
Theorem tier_ignores_resolved_profile supabase1 supabase2 user s :
  select_latest_subscription supabase1 (User.id user) =
  select_latest_subscription supabase2 (User.id user) ->
  reaches_subscription_query (User.id user) (actions supabase1 (Some user) s) ->
  reaches_subscription_query (User.id user) (actions supabase2 (Some user) s) ->
  Hook.tier (useSubscriptionTier supabase1 (Some user) s) =
  Hook.tier (useSubscriptionTier supabase2 (Some user) s) /\
  DiagnosticData.finalTier (Hook.diagnostics (useSubscriptionTier supabase1 (Some user) s)) =
  DiagnosticData.finalTier (Hook.diagnostics (useSubscriptionTier supabase2 (Some user) s)) /\
  DiagnosticData.subscriptionError
    (Hook.diagnostics (useSubscriptionTier supabase1 (Some user) s)) =
  DiagnosticData.subscriptionError
    (Hook.diagnostics (useSubscriptionTier supabase2 (Some user) s)) /\
  DiagnosticData.profileError
    (Hook.diagnostics (useSubscriptionTier supabase1 (Some user) s)) =
  DiagnosticData.profileError
    (Hook.diagnostics (useSubscriptionTier supabase2 (Some user) s)) /\
  forall uid,
    reaches_subscription_query uid (actions supabase1 (Some user) s) -> uid = User.id user.
Proof.
  intros Hsame Hr1 Hr2.
  destruct (reached_outcome supabase1 user s Hr1) as (Ht1 & Hf1 & Hs1 & Hp1 & _).
  destruct (reached_outcome supabase2 user s Hr2) as (Ht2 & Hf2 & Hs2 & Hp2 & _).
  rewrite Ht1, Hf1, Hs1, Hp1, Ht2, Hf2, Hs2, Hp2, Hsame.
  repeat split.
  intros uid Hin. unfold reaches_subscription_query in Hin. apply In_queries in Hin.
  destruct (queries_shape supabase1 user s) as (k & Hk & Hq).
  assert (Hcases : k = 1 \/ k = 2 \/ k = 3 \/ k = 4) by lia.
  destruct Hq as [Hq|Hq]; rewrite Hq in Hin;
    destruct Hcases as [-> | [-> | [-> | ->]]]; cbn in Hin;
    intuition (try discriminate; congruence).
Qed.

Lemma tier_ignores_resolved_profile_witness :
  Hook.tier (useSubscriptionTier (known_profile_client sample_table) (Some alice) mounted) =
  Hook.tier (useSubscriptionTier (rpc_only_client sample_table) (Some alice) mounted).
Proof.
  destruct (tier_ignores_resolved_profile (known_profile_client sample_table)
              (rpc_only_client sample_table) alice mounted) as (Ht & _).
  - reflexivity.
  - vm_compute. auto 20.
  - vm_compute. auto 20.
  - exact Ht.
Defined.

(** X6. After any resolution the published diagnostics are of one of two
    kinds: a success, where [finalTier] holds the tier just set, the tier
    cell holds it too and no error is recorded; or a failure, where a
    textual [profileError] is recorded, [finalTier] is absent, [setTier] was
    not called and the tier cell kept its value.  A [subscriptionError] is
    only ever published together with a [profileError]. *)
Theorem diagnostics_record_success_or_failure supabase user s :
  (exists x,
     DiagnosticData.finalTier (Hook.diagnostics (useSubscriptionTier supabase (Some user) s))
       = Some x /\
     Hook.tier (useSubscriptionTier supabase (Some user) s) = x /\
     tiers_set (actions supabase (Some user) s) = [x] /\
     DiagnosticData.profileError
       (Hook.diagnostics (useSubscriptionTier supabase (Some user) s)) = None /\
     DiagnosticData.subscriptionError
       (Hook.diagnostics (useSubscriptionTier supabase (Some user) s)) = None)
  \/
  (DiagnosticData.finalTier (Hook.diagnostics (useSubscriptionTier supabase (Some user) s))
     = None /\
   Hook.tier (useSubscriptionTier supabase (Some user) s) = Hook.tier (hook s) /\
   tiers_set (actions supabase (Some user) s) = [] /\
   exists text,
     DiagnosticData.profileError
       (Hook.diagnostics (useSubscriptionTier supabase (Some user) s)) = Some text).
Proof.
  destruct (resolution_summary supabase user)
    as (r & t & k & d & v & ending & _ & _ & _ & _ & Hf & Hrun & _ & _ & Hte & _ & _ & Hout).
  destruct (Hrun s) as [Hhook Hact].
  assert (Hts : tiers_set (actions supabase (Some user) s) = tiers_set ending).
  { rewrite Hact. cbn [tiers_set].
    now rewrite tiers_set_app, (lookup_events_set_no_tier _ Hf). }
  unfold useSubscriptionTier. rewrite Hhook, Hts, Hte. cbn [Hook.tier Hook.diagnostics].
  destruct v as [x|].
  - left. exists x. destruct Hout as (p & resp & _ & _ & _ & _ & Hd). rewrite Hd. auto.
  - right.
    destruct Hout
      as [(th & _ & Hd)|[(p & re & _ & _ & Hd)|(p & resp & e & _ & _ & _ & Hd)]];
      rewrite Hd; cbn; eauto 10.
Qed.

(** X7. A resolution starts from a fresh diagnostic object: the actions
    it performs and the diagnostics it publishes are the same whatever the
    state of the hook before it, so nothing recorded by an earlier resolution
    (stage labels, errors, [finalTier]) leaks into the new diagnostics. *)
Theorem diagnostics_do_not_leak supabase user s s' :
  actions supabase (Some user) s = actions supabase (Some user) s' /\
  Hook.diagnostics (useSubscriptionTier supabase (Some user) s) =
  Hook.diagnostics (useSubscriptionTier supabase (Some user) s').
Proof.
  destruct (resolution_summary supabase user)
    as (r & t & k & d & v & ending & _ & _ & _ & _ & _ & Hrun & _).
  destruct (Hrun s) as [Hhook Hact]. destruct (Hrun s') as [Hhook' Hact'].
  unfold useSubscriptionTier. rewrite Hhook, Hhook', Hact, Hact'. auto.
Qed.

(** X8. Against the same answers, resolving twice in a row leaves the
    three cells of the hook as resolving once does. *)
Theorem resolving_twice_is_resolving_once supabase user s :
  hook (after_effect supabase (Some user) (after_effect supabase (Some user) s)) =
  hook (after_effect supabase (Some user) s).
Proof.
  destruct (resolution_summary supabase user)
    as (r & t & k & d & v & ending & _ & _ & _ & _ & _ & Hrun & _).
  destruct (Hrun (after_effect supabase (Some user) s)) as [Hhook2 _].
  destruct (Hrun s) as [Hhook _].
  rewrite Hhook2, Hhook. destruct v; reflexivity.
Qed.

Lemma activeTier_truthy subscriptionData : Js.truthy (activeTier subscriptionData) = true.
Proof.
  unfold activeTier, Js.or_else.
  destruct (first_tier subscriptionData) as [x|]; [|reflexivity].
  destruct (Js.truthy x) eqn:Hx; [exact Hx|reflexivity].
Qed.

Lemma run_effects_tier_truthy renders s :
  Js.truthy (Hook.tier (hook s)) = true ->
  Js.truthy (Hook.tier (hook (run_effects renders s))) = true.
Proof.
  revert s. induction renders as [|[supabase user] rest IH]; intros s Hs; [exact Hs|].
  cbn [run_effects]. apply IH.
  destruct (effect_tier_cases supabase user s)
    as [[_ Hsame]|(u & resp & _ & _ & _ & _ & Hnew)].
  - now rewrite Hsame.
  - rewrite Hnew. apply activeTier_truthy.
Qed.

(** X9. The tier cell never holds the empty string: over any life of the
    hook from the mounted state the tier is a non-empty string, and every
    value a run of the effect passes to [setTier] is non-empty. *)
Theorem tier_is_never_empty renders :
  Js.truthy (Hook.tier (hook (run_effects renders mounted))) = true /\
  forall supabase user s v,
    In v (tiers_set (actions supabase user s)) -> Js.truthy v = true.
Proof.
  split.
  - now apply run_effects_tier_truthy.
  - intros supabase user s v Hin.
    destruct (effect_tier_cases supabase user s)
      as [[Hnone _]|(u & resp & _ & _ & _ & Hset & _)].
    + rewrite Hnone in Hin. contradiction.
    + rewrite Hset in Hin. destruct Hin as [<-|[]]. apply activeTier_truthy.
Qed.

Lemma tier_is_never_empty_witness :
  Js.truthy "pro" = true.
Proof.
  destruct (tier_is_never_empty []) as [_ Hset].
  apply (Hset (known_profile_client sample_table) (Some alice) mounted "pro").
  vm_compute. auto.
Defined.

(* ================================================================== *)
(** ** Paths through the cascade *)

(** What a resolution does once its cascade is known. *)
Lemma known_cascade supabase user s r0 t0 :
  profile_cascade supabase user (try_entry s) = (r0, advance t0 (try_entry s)) ->
  queries (actions supabase (Some user) s) =
    queries t0 ++ match r0 with
                  | Normal _ => [SelectLatestSubscription (User.id user)]
                  | Abrupt _ => []
                  end /\
  DiagnosticData.profileLookupStages
    (Hook.diagnostics (useSubscriptionTier supabase (Some user) s)) = pushed t0 /\
  match r0 with
  | Normal _ => True
  | Abrupt thrown =>
      Hook.tier (useSubscriptionTier supabase (Some user) s) = Hook.tier (hook s) /\
      Hook.diagnostics (useSubscriptionTier supabase (Some user) s) =
        DiagnosticData.mk (pushed t0) None None (Some (error_text thrown))
  end.
Proof.
  intros H0.
  destruct (resolution_summary supabase user)
    as (r & t & k & d & v & ending & Hc & _ & _ & _ & _ & Hrun & Hqe & _ & _ & _ & _ & Hout).
  destruct (shape_known supabase user r0 t0 (try_entry s) Hc H0) as [-> ->].
  destruct (Hrun s) as [Hhook Hact].
  unfold useSubscriptionTier. rewrite Hhook, Hact. cbn [queries Hook.diagnostics Hook.tier].
  rewrite queries_app, Hqe.
  destruct v as [x|].
  - destruct Hout as (p & resp & -> & _ & _ & _ & Hd). rewrite Hd. auto.
  - destruct Hout
      as [(th & -> & Hd)|[(p & re & -> & _ & Hd)|(p & resp & e & -> & _ & _ & Hd)]];
      rewrite Hd; auto.
Qed.

Lemma stage1_rejected supabase user reason s :
  select_profile_by_email supabase (User.email user) = Rejected reason ->
  stage1 supabase user s =
  (Abrupt reason,
   advance [PushStage label_stage1; Await (SelectProfileByEmail (User.email user))] s).
Proof.
  intros H1. unfold stage1.
  rewrite (bind_normal _ _ _ _ _ (push_run _ _)).
  rewrite (bind_abrupt _ _ _ _ _ (await_rejected _ _ _ _ H1)).
  now rewrite advance_advance.
Qed.

Lemma stage2_rejected supabase user reason s :
  select_profiles_ilike_email supabase (User.email user) = Rejected reason ->
  stage2 supabase user None s =
  (Abrupt reason,
   advance [PushStage label_stage2; Await (SelectProfilesILikeEmail (User.email user))] s).
Proof.
  intros H2. unfold stage2.
  rewrite (bind_normal _ _ _ _ _ (push_run _ _)).
  rewrite (bind_abrupt _ _ _ _ _ (await_rejected _ _ _ _ H2)).
  now rewrite advance_advance.
Qed.

Lemma stage3_rejected supabase user reason s :
  rpc_get_auth_user_by_email supabase (Js.encodeURIComponent (User.email user))
    = Rejected reason ->
  stage3 supabase user None s =
  (Abrupt reason,
   advance [PushStage label_stage3;
            Await (RpcGetAuthUserByEmail (Js.encodeURIComponent (User.email user)))] s).
Proof.
  intros H3. unfold stage3.
  rewrite (bind_normal _ _ _ _ _ (push_run _ _)). cbn zeta.
  rewrite (bind_abrupt _ _ _ _ _ (await_rejected _ _ _ _ H3)).
  now rewrite advance_advance.
Qed.

(** X10. A lookup promise that rejects, unlike a lookup response that
    carries an error, aborts the resolution on the spot: no later lookup,
    no insert and no subscription query is awaited, the tier cell keeps its
    value, and the published diagnostics hold the stage labels so far and
    the text of the rejection reason.  This holds for the exact match, for
    the case-insensitive match and for the RPC. *)
Theorem rejected_lookup_aborts_resolution supabase user s :
  (forall reason,
     select_profile_by_email supabase (User.email user) = Rejected reason ->
     queries (actions supabase (Some user) s) = firstn 1 (lookup_queries user) /\
     Hook.tier (useSubscriptionTier supabase (Some user) s) = Hook.tier (hook s) /\
     Hook.diagnostics (useSubscriptionTier supabase (Some user) s) =
       DiagnosticData.mk (firstn 1 stage_labels) None None (Some (error_text reason))) /\
  (forall r1 reason,
     select_profile_by_email supabase (User.email user) = Fulfilled r1 ->
     data r1 = None ->
     select_profiles_ilike_email supabase (User.email user) = Rejected reason ->
     queries (actions supabase (Some user) s) = firstn 2 (lookup_queries user) /\
     Hook.tier (useSubscriptionTier supabase (Some user) s) = Hook.tier (hook s) /\
     Hook.diagnostics (useSubscriptionTier supabase (Some user) s) =
       DiagnosticData.mk (firstn 2 stage_labels) None None (Some (error_text reason))) /\
  (forall r1 r2 reason,
     select_profile_by_email supabase (User.email user) = Fulfilled r1 ->
     data r1 = None ->
     select_profiles_ilike_email supabase (User.email user) = Fulfilled r2 ->
     single_match (data r2) = None ->
     rpc_get_auth_user_by_email supabase (Js.encodeURIComponent (User.email user))
       = Rejected reason ->
     queries (actions supabase (Some user) s) = firstn 3 (lookup_queries user) /\
     Hook.tier (useSubscriptionTier supabase (Some user) s) = Hook.tier (hook s) /\
     Hook.diagnostics (useSubscriptionTier supabase (Some user) s) =
       DiagnosticData.mk (firstn 3 stage_labels) None None (Some (error_text reason))).
Proof.
  repeat match goal with |- _ /\ _ => split end.
  - intros reason H1.
    assert (Hk : profile_cascade supabase user (try_entry s) =
                 (Abrupt reason,
                  advance [PushStage label_stage1;
                           Await (SelectProfileByEmail (User.email user))] (try_entry s))).
    { unfold profile_cascade.
      now rewrite (bind_abrupt _ _ _ _ _ (stage1_rejected _ _ _ _ H1)). }
    destruct (known_cascade _ _ _ _ _ Hk) as (Hq & _ & Ht & Hd).
    rewrite Hq, Ht, Hd. auto.
  - intros r1 reason H1 Hd1 H2.
    assert (Hk : profile_cascade supabase user (try_entry s) =
                 (Abrupt reason,
                  advance ([PushStage label_stage1;
                            Await (SelectProfileByEmail (User.email user))] ++
                           [PushStage label_stage2;
                            Await (SelectProfilesILikeEmail (User.email user))])
                    (try_entry s))).
    { unfold profile_cascade.
      rewrite (bind_normal _ _ _ _ _ (stage1_run _ _ _ _ H1)), Hd1.
      rewrite (bind_abrupt _ _ _ _ _ (stage2_rejected _ _ _ _ H2)).
      now rewrite advance_advance. }
    destruct (known_cascade _ _ _ _ _ Hk) as (Hq & _ & Ht & Hd).
    rewrite Hq, Ht, Hd. auto.
  - intros r1 r2 reason H1 Hd1 H2 Hd2 H3.
    assert (Hk : profile_cascade supabase user (try_entry s) =
                 (Abrupt reason,
                  advance (([PushStage label_stage1;
                             Await (SelectProfileByEmail (User.email user))] ++
                            [PushStage label_stage2;
                             Await (SelectProfilesILikeEmail (User.email user))]) ++
                           [PushStage label_stage3;
                            Await (RpcGetAuthUserByEmail
                                     (Js.encodeURIComponent (User.email user)))])
                    (try_entry s))).
    { unfold profile_cascade.
      rewrite (bind_normal _ _ _ _ _ (stage1_run _ _ _ _ H1)), Hd1.
      rewrite (bind_normal _ _ _ _ _ (stage2_run _ _ _ _ H2)), Hd2.
      rewrite (bind_abrupt _ _ _ _ _ (stage3_rejected _ _ _ _ H3)).
      now rewrite !advance_advance. }
    destruct (known_cascade _ _ _ _ _ Hk) as (Hq & _ & Ht & Hd).
    rewrite Hq, Ht, Hd. auto.
Qed.

Lemma rejected_lookup_aborts_resolution_witness :
  queries (actions offline_client (Some alice) mounted) =
    [SelectProfileByEmail "Alice+x@Example.io"] /\
  Hook.diagnostics (useSubscriptionTier offline_client (Some alice) mounted) =
    DiagnosticData.mk [label_stage1] None None (Some "Failed to fetch").
Proof.
  destruct (rejected_lookup_aborts_resolution offline_client alice mounted) as (H1 & _).
  destruct (H1 (ErrorInstance "Failed to fetch") eq_refl) as (Hq & _ & Hd).
  split; [exact Hq | exact Hd].
Defined.

(** X11. When the first two stages find no profile and the RPC returns a
    non-empty identifier, the cascade stops at stage 3: the stage list is
    the first three labels, no insert is awaited (no profile row is
    written), and the subscription query comes right after the RPC. *)
Theorem rpc_hit_skips_profile_creation supabase user s r1 r2 r3 v :
  select_profile_by_email supabase (User.email user) = Fulfilled r1 ->
  data r1 = None ->
  select_profiles_ilike_email supabase (User.email user) = Fulfilled r2 ->
  single_match (data r2) = None ->
  rpc_get_auth_user_by_email supabase (Js.encodeURIComponent (User.email user)) = Fulfilled r3 ->
  data r3 = Some v ->
  Js.truthy v = true ->
  queries (actions supabase (Some user) s) =
    firstn 3 (lookup_queries user) ++ [SelectLatestSubscription (User.id user)] /\
  ~ In (InsertProfile (User.email user) (User.id user))
       (queries (actions supabase (Some user) s)) /\
  DiagnosticData.profileLookupStages
    (Hook.diagnostics (useSubscriptionTier supabase (Some user) s)) = firstn 3 stage_labels.
Proof.
  intros H1 Hd1 H2 Hd2 H3 Hd3 Hv.
  assert (Hk : profile_cascade supabase user (try_entry s) =
               (Normal (Some (Profile.mk v)),
                advance (([PushStage label_stage1;
                           Await (SelectProfileByEmail (User.email user))] ++
                          [PushStage label_stage2;
                           Await (SelectProfilesILikeEmail (User.email user))]) ++
                         [PushStage label_stage3;
                          Await (RpcGetAuthUserByEmail
                                   (Js.encodeURIComponent (User.email user)))])
                  (try_entry s))).
  { unfold profile_cascade.
    rewrite (bind_normal _ _ _ _ _ (stage1_run _ _ _ _ H1)), Hd1.
    rewrite (bind_normal _ _ _ _ _ (stage2_run _ _ _ _ H2)), Hd2.
    rewrite (bind_normal _ _ _ _ _ (stage3_run _ _ _ _ H3)), Hd3.
    unfold profile_of_rpc. rewrite Hv. cbn [stage4 ret].
    now rewrite !advance_advance. }
  destruct (known_cascade _ _ _ _ _ Hk) as (Hq & Hst & _).
  rewrite Hq, Hst. repeat split.
  cbn. intuition discriminate.
Qed.

Lemma rpc_hit_skips_profile_creation_witness :
  queries (actions (rpc_only_client sample_table) (Some alice) mounted) =
    [ SelectProfileByEmail "Alice+x@Example.io";
      SelectProfilesILikeEmail "Alice+x@Example.io";
      RpcGetAuthUserByEmail "Alice%2Bx%40Example.io";
      SelectLatestSubscription "u-1" ].
Proof.
  destruct (rpc_hit_skips_profile_creation (rpc_only_client sample_table) alice mounted
              (mkResponse None None)
              (mkResponse (Some [Profile.mk "p-1"; Profile.mk "p-2"]) None)
              (mkResponse (Some "p-7") None) "p-7"
              eq_refl eq_refl eq_refl eq_refl eq_refl eq_refl eq_refl) as (Hq & _).
  exact Hq.
Defined.

(** X12. When no stage finds a profile (an RPC result that is null or the
    empty string counts as none) and the insert returns without error, the
    profile creation counts as done even when the response carries no row:
    the success label closes the stage list and the subscription query is
    awaited next, so that an error-free answer to it sets the tier. *)
Theorem created_profile_proceeds_to_subscription supabase user s r1 r2 r3 r4 :
  select_profile_by_email supabase (User.email user) = Fulfilled r1 ->
  data r1 = None ->
  select_profiles_ilike_email supabase (User.email user) = Fulfilled r2 ->
  single_match (data r2) = None ->
  rpc_get_auth_user_by_email supabase (Js.encodeURIComponent (User.email user)) = Fulfilled r3 ->
  data r3 = None \/ data r3 = Some "" ->
  insert_profile supabase (User.email user) (User.id user) = Fulfilled r4 ->
  error r4 = None ->
  queries (actions supabase (Some user) s) =
    lookup_queries user ++ [SelectLatestSubscription (User.id user)] /\
  DiagnosticData.profileLookupStages
    (Hook.diagnostics (useSubscriptionTier supabase (Some user) s)) =
    stage_labels ++ [label_created] /\
  (forall resp,
     select_latest_subscription supabase (User.id user) = Fulfilled resp ->
     error resp = None ->
     Hook.tier (useSubscriptionTier supabase (Some user) s) = activeTier (data resp)).
Proof.
  intros H1 Hd1 H2 Hd2 H3 Hd3 H4 He4.
  assert (Hnone : profile_of_rpc (data r3) = None)
    by (destruct Hd3 as [Hd3|Hd3]; rewrite Hd3; reflexivity).
  assert (Hk : profile_cascade supabase user (try_entry s) =
               (Normal (data r4),
                advance (events_until_insert user ++ [PushStage label_created])
                  (try_entry s))).
  { unfold profile_cascade.
    rewrite (bind_normal _ _ _ _ _ (stage1_run _ _ _ _ H1)), Hd1.
    rewrite (bind_normal _ _ _ _ _ (stage2_run _ _ _ _ H2)), Hd2.
    rewrite (bind_normal _ _ _ _ _ (stage3_run _ _ _ _ H3)), Hnone.
    rewrite (stage4_success _ _ _ _ H4 He4), !advance_advance. reflexivity. }
  destruct (known_cascade _ _ _ _ _ Hk) as (Hq & Hst & _).
  rewrite Hq, Hst. repeat split.
  intros resp Hsel Herr.
  exact (completed_cascade_sets_tier _ _ _ _ _ _ Hk Hsel Herr).
Qed.

Lemma created_profile_proceeds_to_subscription_witness :
  DiagnosticData.profileLookupStages
    (Hook.diagnostics (useSubscriptionTier (creating_client sample_table) (Some alice) mounted))
    = stage_labels ++ [label_created] /\
  Hook.tier (useSubscriptionTier (creating_client sample_table) (Some alice) mounted) = "pro".
Proof.
  destruct (created_profile_proceeds_to_subscription (creating_client sample_table) alice
              mounted (mkResponse None None) (mkResponse (Some []) None)
              (mkResponse (Some "") None) (mkResponse None None)
              eq_refl eq_refl eq_refl eq_refl eq_refl (or_intror eq_refl) eq_refl eq_refl)
    as (_ & Hst & Ht).
  split; [exact Hst|].
  exact (Ht (mkResponse (Some [TierRow.mk "pro"]) None) eq_refl eq_refl).
Defined.

(* ================================================================== *)
(** ** The e-mail sent to the RPC *)

Lemma hex_digits_are_not_at_signs c :
  Js.hex_digit (N_of_ascii c / 16) <> "@"%char /\
  Js.hex_digit (N_of_ascii c mod 16) <> "@"%char.
Proof.
  destruct c as [[] [] [] [] [] [] [] []]; split; discriminate.
Qed.

Lemma encodeURIComponent_has_no_at_sign s :
  ~ In "@"%char (list_ascii_of_string (Js.encodeURIComponent s)).
Proof.
  induction s as [|c rest IH]; cbn [Js.encodeURIComponent]; [intros []|].
  destruct (Js.unreserved c) eqn:Hc; cbn [list_ascii_of_string].
  - intros [Heq|Hin]; [|exact (IH Hin)]. subst c. discriminate.
  - destruct (hex_digits_are_not_at_signs c) as [Hh Hl].
    intros [Heq|[Heq|[Heq|Hin]]]; [discriminate|now apply Hh|now apply Hl|exact (IH Hin)].
Qed.

(** X13. Every RPC call of a resolution receives the percent-encoded
    e-mail of the identity: the argument never contains an at sign, so
    whenever the e-mail contains one the RPC is not given the e-mail
    itself. *)
Theorem rpc_receives_encoded_email supabase user s p :
  In (RpcGetAuthUserByEmail p) (queries (actions supabase (Some user) s)) ->
  p = Js.encodeURIComponent (User.email user) /\
  ~ In "@"%char (list_ascii_of_string p) /\
  (In "@"%char (list_ascii_of_string (User.email user)) -> p <> User.email user).
Proof.
  intros Hin.
  assert (Hp : p = Js.encodeURIComponent (User.email user)).
  { destruct (queries_shape supabase user s) as (k & Hk & Hq).
    assert (Hcases : k = 1 \/ k = 2 \/ k = 3 \/ k = 4) by lia.
    destruct Hq as [Hq|Hq]; rewrite Hq in Hin;
      destruct Hcases as [-> | [-> | [-> | ->]]]; cbn in Hin;
      intuition (try discriminate; congruence). }
  subst p. split; [reflexivity|]. split; [apply encodeURIComponent_has_no_at_sign|].
  intros Hat Heq. rewrite <- Heq in Hat.
  exact (encodeURIComponent_has_no_at_sign _ Hat).
Qed.

Lemma rpc_receives_encoded_email_witness :
  "Alice%2Bx%40Example.io" <> User.email alice.
Proof.
  destruct (rpc_receives_encoded_email (rpc_only_client sample_table) alice mounted
              "Alice%2Bx%40Example.io") as (_ & _ & Hne).
  - vm_compute. auto 10.
  - apply Hne. vm_compute. auto 20.
Defined.

Lemma unreserved_not_percent c : Js.unreserved c = true -> Ascii.eqb c "%" = false.
Proof.
  intros Hc. destruct (Ascii.eqb_spec c "%") as [->|]; [discriminate|reflexivity].
Qed.

Lemma hex_digits_read_back c :
  ascii_of_N (16 * hex_value (Js.hex_digit (N_of_ascii c / 16))
              + hex_value (Js.hex_digit (N_of_ascii c mod 16))) = c.
Proof.
  destruct c as [[] [] [] [] [] [] [] []]; reflexivity.
Qed.

Lemma percent_decode_encodeURIComponent s :
  percent_decode (Js.encodeURIComponent s) = s.
Proof.
  induction s as [|c rest IH]; [reflexivity|].
  cbn [Js.encodeURIComponent].
  destruct (Js.unreserved c) eqn:Hc.
  - cbn [percent_decode]. rewrite (unreserved_not_percent _ Hc), IH. reflexivity.
  - cbn [percent_decode]. change (Ascii.eqb "%" "%") with true. cbn iota.
    rewrite hex_digits_read_back, IH. reflexivity.
Qed.

(** X14. [encodeURIComponent] loses nothing: reading the escapes back
    gives the original string, so two different e-mails are never sent to
    the RPC as the same argument. *)
Theorem encoded_emails_do_not_collide s1 s2 :
  Js.encodeURIComponent s1 = Js.encodeURIComponent s2 -> s1 = s2.
Proof.
  intros H. apply (f_equal percent_decode) in H.
  now rewrite !percent_decode_encodeURIComponent in H.
Qed.

Lemma encoded_emails_do_not_collide_witness :
  "a+b@x.io" = "a+b@x.io".
Proof.
  apply (encoded_emails_do_not_collide "a+b@x.io" "a+b@x.io"). reflexivity.
Defined.

(* ================================================================== *)
(** ** The subscriptions table *)

Lemma Subscription_eq_dec (a b : Subscription.t) : {a = b} + {a <> b}.
Proof.
  decide equality; [apply Z.eq_dec|apply string_dec|apply string_dec].
Qed.

(** The tier of a resolution that reaches the subscription query of a
    backend answering from [table]. *)
Lemma reached_tier_of_table supabase user s table :
  answers_from_table supabase table ->
  reaches_subscription_query (User.id user) (actions supabase (Some user) s) ->
  Hook.tier (useSubscriptionTier supabase (Some user) s) = tier_of_table table (User.id user).
Proof.
  intros Hans Hreach.
  destruct (reached_outcome supabase user s Hreach) as (Ht & _).
  rewrite (Hans (User.id user)) in Ht. exact Ht.
Qed.

(** X16. When one row of the identity is strictly newer than all its
    other rows, that row decides the tier wherever it stands in the table:
    the tier is its [tier] field, or "free" when that field is empty. *)
Theorem only_newest_row_decides_tier supabase user s table r :
  answers_from_table supabase table ->
  reaches_subscription_query (User.id user) (actions supabase (Some user) s) ->
  strictly_newest_row table (User.id user) r ->
  Hook.tier (useSubscriptionTier supabase (Some user) s) =
    (if Js.truthy (Subscription.tier r) then Subscription.tier r else "free").
Proof.
  intros Hans Hreach (Hin & Hu & Hstrict).
  rewrite (reached_tier_of_table _ _ _ _ Hans Hreach).
  destruct (tier_of_table_spec (User.id user) table) as [[_ Hnone]|(r' & Hr' & Hv)].
  - exfalso. exact (Hnone r Hin Hu).
  - destruct Hr' as (Hin' & Hu' & Hmax).
    destruct (Subscription_eq_dec r' r) as [->|Hne]; [exact Hv|].
    exfalso. specialize (Hstrict r' Hin' Hu' Hne). specialize (Hmax r Hin Hu). lia.
Qed.

Lemma only_newest_row_decides_tier_witness :
  Hook.tier (useSubscriptionTier (known_profile_client sample_table) (Some alice) mounted)
    = "pro".
Proof.
  apply (only_newest_row_decides_tier (known_profile_client sample_table) alice mounted
           sample_table (Subscription.mk "u-1" "pro" 30)).
  - intros uid. reflexivity.
  - vm_compute. auto 20.
  - repeat split.
    + simpl. auto.
    + intros r' [<-|[<-|[<-|[<-|[]]]]] Hu Hne; simpl in *;
        try lia; try discriminate; congruence.
Defined.
